(** * MediCart: the pricing chain, the cart and the prescription gate

    A shallow embedding of [src/app.js].  JavaScript numbers are IEEE-754
    binary64 values; they are modelled with the Standard Library's
    [spec_float] at precision 53 and maximal exponent 1024, so that every
    price below is the very double the script computes. *)

From Stdlib Require Import ZArith Bool.
From Stdlib Require Import Floats.SpecFloat.
From stdpp Require Import base list strings gmap.

Local Open Scope Z_scope.

(** ** JavaScript numbers *)

Module JSNumber.

Definition number : Type := spec_float.

Definition prec : Z := 53.
Definition emax : Z := 1024.

Definition NaN : number := S754_nan.
Definition Infinity : number := S754_infinity false.
Definition neg_Infinity : number := S754_infinity true.

(** The double nearest to an integer (exact below 2^53). *)
Definition of_Z (z : Z) : number := binary_normalize prec emax z 0 false.

Definition add : number -> number -> number := SFadd prec emax.
Definition sub : number -> number -> number := SFsub prec emax.
Definition mul : number -> number -> number := SFmul prec emax.
Definition div : number -> number -> number := SFdiv prec emax.

(** A decimal literal [n/d] of the script, e.g. [24.99] is [lit 2499 100]:
    the double nearest to the quotient. *)
Definition lit (n d : Z) : number := div (of_Z n) (of_Z d).

Definition ltb (x y : number) : bool := SFltb x y.
Definition leb (x y : number) : bool := SFleb x y.

Definition is_nan (x : number) : bool :=
  match x with S754_nan => true | _ => false end.

Definition is_zero (x : number) : bool :=
  match x with S754_zero _ => true | _ => false end.

(** The value is a mathematical integer. *)
Definition is_integer (x : number) : bool :=
  match x with
  | S754_zero _ => true
  | S754_finite _ m e =>
      match e with
      | Zneg k => Zpos m mod 2 ^ Zpos k =? 0
      | _ => true
      end
  | _ => false
  end.

(** ToBoolean on a number: [NaN], [+0] and [-0] are falsy. *)
Definition ToBoolean (x : number) : bool :=
  match x with
  | S754_nan | S754_zero _ => false
  | _ => true
  end.

(** [a || b] on numbers. *)
Definition or_else (a b : number) : number := if ToBoolean a then a else b.

(** ToIntegerOrInfinity. *)
Inductive IntegerOrInfinity :=
| NegInf
| Int (z : Z)
| PosInf.

Definition ToIntegerOrInfinity (x : number) : IntegerOrInfinity :=
  match x with
  | S754_nan | S754_zero _ => Int 0
  | S754_infinity s => if s then NegInf else PosInf
  | S754_finite s m e =>
      let t := match e with
               | Zneg k => Zpos m / 2 ^ Zpos k
               | _ => Zpos m * 2 ^ e
               end in
      Int (if s then - t else t)
  end.

(** The doubles 0, 1 and 100, written out. *)
Definition zero : number := S754_zero false.
Definition one : number := S754_finite false 4503599627370496 (-52).
Definition hundred : number := S754_finite false 7036874417766400 (-46).

Definition is_neg_zero (x : number) : bool :=
  match x with S754_zero true => true | _ => false end.

End JSNumber.

Export JSNumber.

(** ** Math.max and Math.min

  Both walk their arguments from left to right, starting from the
  opposite infinity, return [NaN] at the first [NaN], and order the two
  zeros ([-0] below [+0]). *)

Module Math.

Definition max_step (highest : option number) (x : number) : option number :=
  match highest with
  | None => None
  | Some h =>
      if is_nan x then None
      else if match x, h with
              | S754_zero false, S754_zero true => true
              | _, _ => false
              end then Some x
      else if ltb h x then Some x
      else Some h
  end.

Definition max (args : list number) : number :=
  match foldl max_step (Some neg_Infinity) args with
  | Some h => h
  | None => NaN
  end.

Definition min_step (lowest : option number) (x : number) : option number :=
  match lowest with
  | None => None
  | Some l =>
      if is_nan x then None
      else if match x, l with
              | S754_zero true, S754_zero false => true
              | _, _ => false
              end then Some x
      else if ltb x l then Some x
      else Some l
  end.

Definition min (args : list number) : number :=
  match foldl min_step (Some Infinity) args with
  | Some l => l
  | None => NaN
  end.

End Math.

(** ** [toFixed(2)] and the unary plus that reads the string back

  The string is kept structured: what matters below is the number it
  denotes, not its characters. *)

Inductive FixedString :=
| Str_NaN                              (* "NaN" *)
| Str_Infinity (neg : bool)            (* "Infinity", "-Infinity" *)
| Str_ToString (x : number)            (* magnitude at least 1e21: the digits of Number::toString *)
| Str_Decimal (neg : bool) (n : Z).    (* sign, digits of n, a point before the last two *)

(** The integer [n] for which [n / 100 - m * 2^e] is closest to zero, the
  larger one on a tie. *)
Definition toFixed2_n (m : positive) (e : Z) : Z :=
  match e with
  | Zneg k => (200 * Zpos m + 2 ^ Zpos k) / 2 ^ (Zpos k + 1)
  | _ => Zpos m * 2 ^ e * 100
  end.

Definition ten_pow_21 : number := of_Z (10 ^ 21).

Definition toFixed2 (x : number) : FixedString :=
  match x with
  | S754_nan => Str_NaN
  | S754_infinity s => Str_Infinity s
  | S754_zero _ => Str_Decimal false 0
  | S754_finite s m e =>
      if leb ten_pow_21 (S754_finite false m e) then Str_ToString x
      else Str_Decimal s (toFixed2_n m e)
  end.

(** [+s] for a string [s] that [toFixed] produced: the double nearest to
  the decimal it spells. *)
Definition StringToNumber (s : FixedString) : number :=
  match s with
  | Str_NaN => NaN
  | Str_Infinity neg => S754_infinity neg
  | Str_ToString x => x
  | Str_Decimal neg n =>
      match n with
      | Zpos p => div (S754_finite neg p 0) (S754_finite false 100 0)
      | _ => S754_zero neg
      end
  end.

(** [+(x).toFixed(2)]: what the specification calls round2. *)
Definition round2 (x : number) : number := StringToNumber (toFixed2 x).

(** ** Catalog, products and the factory *)

(** The four fields every product object carries. *)
Record Fields := {
  id : string;
  name : string;
  basePrice : number;
  prescriptionRequired : bool
}.

Definition CATALOG : list Fields := [
  {| id := "amox500"; name := "Amoxicillin 500mg (20 caps)";
     basePrice := lit 2499 100; prescriptionRequired := true |};
  {| id := "ator20"; name := "Atorvastatin 20mg (30 tabs)";
     basePrice := lit 345 10; prescriptionRequired := true |};
  {| id := "met500"; name := "Metformin 500mg (60 tabs)";
     basePrice := lit 1825 100; prescriptionRequired := true |};
  {| id := "omep20"; name := "Omeprazole 20mg (14 caps)";
     basePrice := lit 995 100; prescriptionRequired := false |}
].

(** Objects of class [Product] and of its two decorator subclasses.  A
    decorator keeps its wrappee and its own clamped percentage; the four
    inherited fields are copied from the wrappee by [super(wrappee)]. *)
Inductive Product :=
| PlainProduct (f : Fields)
| Discounted (wrappee : Product) (percent : number)
| Insured (wrappee : Product) (coveragePercent : number).

Fixpoint fields (p : Product) : Fields :=
  match p with
  | PlainProduct f => f
  | Discounted wrappee _ => fields wrappee
  | Insured wrappee _ => fields wrappee
  end.

(** [new Product({ id, name, basePrice, prescriptionRequired })] *)
Definition Product_new (f : Fields) : Product := PlainProduct f.

Inductive Result (A : Type) :=
| Return (a : A)
| Throw (message : string).
Arguments Return {A} a.
Arguments Throw {A} message.

Module ProductFactory.

Definition createProduct (productId : string) : Result Product :=
  match List.find (fun p => String.eqb (id p) productId) CATALOG with
  | None => Throw ("Unknown product id: " +:+ productId)
  | Some found => Return (Product_new found)
  end.

End ProductFactory.

(** ** Decorators *)

Definition clamp_percent (percent : number) : number :=
  Math.max [of_Z 0; Math.min [of_Z 100; percent]].

(** [new DiscountDecorator(wrappee, percent)] *)
Definition DiscountDecorator (wrappee : Product) (percent : number) : Product :=
  Discounted wrappee (clamp_percent percent).

(** [new InsuranceDecorator(wrappee, coveragePercent = 30)]; [None] is an
    omitted argument. *)
Definition InsuranceDecorator (wrappee : Product) (coveragePercent : option number)
  : Product :=
  Insured wrappee (clamp_percent (default (of_Z 30) coveragePercent)).

(** [1 - percent / 100] *)
Definition factor (percent : number) : number :=
  sub (of_Z 1) (div percent (of_Z 100)).

(** [+(p * (1 - percent / 100)).toFixed(2)] *)
Definition reduce_price (p percent : number) : number :=
  round2 (mul p (factor percent)).

Fixpoint getPrice (p : Product) : number :=
  match p with
  | PlainProduct f => basePrice f
  | Discounted wrappee percent => reduce_price (getPrice wrappee) percent
  | Insured wrappee coveragePercent => reduce_price (getPrice wrappee) coveragePercent
  end.

(** ** The cart and its observers *)

Record CartLine := { product : Product; qty : number }.

(** What [toFixed] strings are put into. *)
Inductive Text :=
| Dollar (amount : FixedString)   (* `$${amount}` *)
| Literal (s : string).

(** An observer is an object (identified by its address [ref]) that may
    have an [update] method; the method reads the cart's lines and writes
    text into the page. *)
Record Observer := {
  ref : nat;
  update : option (list CartLine -> gmap string Text -> gmap string Text)
}.

Record CartSubject := {
  items : list CartLine;
  observers : list Observer
}.

Definition getTotal (lines : list CartLine) : number :=
  foldl (fun sum item => add sum (mul (getPrice (product item)) (qty item)))
        (of_Z 0) lines.

(** [targetEl.textContent = `$${cart.getTotal().toFixed(2)}`] *)
Definition TotalDisplayObserver (r : nat) (targetEl : string) : Observer :=
  {| ref := r;
     update := Some (fun lines dom =>
                 <[targetEl := Dollar (toFixed2 (getTotal lines))]> dom) |}.

Inductive Alert :=
| FileRequired
| ConfirmationRequired
| PrescriptionNeeded
| ThankYou (total : FixedString).

(** The world around the cart: the text of the page's elements, the state
    of the checkout button, the alerts shown so far, and the history of
    [update] calls (which observer, with which lines in the cart). *)
Record Env := {
  textContent : gmap string Text;
  checkoutDisabled : bool;
  alerts : list Alert;
  updates : list (nat * list CartLine)
}.

Definition CartSubject_new : CartSubject := {| items := []; observers := [] |}.

Definition addObserver (observer : Observer) (c : CartSubject) : CartSubject :=
  {| items := items c; observers := observers c ++ [observer] |}.

Definition removeObserver (observer : Observer) (c : CartSubject) : CartSubject :=
  {| items := items c;
     observers := filter (fun o => ref o ≠ ref observer) (observers c) |}.

(** [o.update && o.update(this)] *)
Definition call_update (c : CartSubject) (w : Env) (o : Observer) : Env :=
  match update o with
  | None => w
  | Some hook =>
      {| textContent := hook (items c) (textContent w);
         checkoutDisabled := checkoutDisabled w;
         alerts := alerts w;
         updates := updates w ++ [(ref o, items c)] |}
  end.

Definition notify (c : CartSubject) (w : Env) : Env :=
  foldl (call_update c) w (observers c).

Definition addItem (p : Product) (q : option number) (c : CartSubject) (w : Env)
  : CartSubject * Env :=
  let quantity := Math.max [of_Z 1; default (of_Z 1) q] in
  let c' := {| items := items c ++ [{| product := p; qty := quantity |}];
               observers := observers c |} in
  (c', notify c' w).

(** [Array.prototype.splice(start, 1)] *)
Definition splice1 {A : Type} (start : number) (l : list A) : list A :=
  let len := Z.of_nat (length l) in
  let actualStart :=
    match ToIntegerOrInfinity start with
    | NegInf => 0
    | Int relativeStart =>
        if relativeStart <? 0 then Z.max (len + relativeStart) 0
        else Z.min relativeStart len
    | PosInf => len
    end in
  let actualDeleteCount := Z.max 0 (Z.min 1 (len - actualStart)) in
  take (Z.to_nat actualStart) l
    ++ drop (Z.to_nat (actualStart + actualDeleteCount)) l.

Definition removeItem (index : number) (c : CartSubject) (w : Env)
  : CartSubject * Env :=
  let c' := {| items := splice1 index (items c); observers := observers c |} in
  (c', notify c' w).

Definition clear (c : CartSubject) (w : Env) : CartSubject * Env :=
  let c' := {| items := []; observers := observers c |} in
  (c', notify c' w).

(** ** The prescription flow

    [verified] is the closure variable of the [Prescription] object; it
    starts [false] and is threaded through the calls. *)

Definition alert (a : Alert) (w : Env) : Env :=
  {| textContent := textContent w;
     checkoutDisabled := checkoutDisabled w;
     alerts := alerts w ++ [a];
     updates := updates w |}.

Module Prescription.

Definition isVerified (verified : bool) : bool := verified.

(** Returns the call's result, the new value of [verified], and the
    world. *)
Definition verify (hasFile confirmed : bool) (verified : bool) (w : Env)
  : bool * bool * Env :=
  if negb hasFile then (false, verified, alert FileRequired w)
  else if negb confirmed then (false, verified, alert ConfirmationRequired w)
  else (true, true, w).

End Prescription.

(** ** The page: state and event handlers *)

Record App := {
  cart : CartSubject;
  verified : bool;
  env : Env
}.

Definition set_text (el : string) (t : Text) (w : Env) : Env :=
  {| textContent := <[el := t]> (textContent w);
     checkoutDisabled := checkoutDisabled w;
     alerts := alerts w;
     updates := updates w |}.

Definition set_checkoutDisabled (b : bool) (w : Env) : Env :=
  {| textContent := textContent w;
     checkoutDisabled := b;
     alerts := alerts w;
     updates := updates w |}.

Definition is_empty (c : CartSubject) : bool :=
  match items c with [] => true | _ => false end.

(** The [DOMContentLoaded] handler: a fresh cart with one total display
    subscribed, notified once. *)
Definition init (w : Env) : App :=
  let cart := CartSubject_new in
  let totalDisplay := TotalDisplayObserver 0 "cart-total" in
  let cart := addObserver totalDisplay cart in
  {| cart := cart; verified := false; env := notify cart w |}.

(** What a click on an Add-to-Cart button reads from its product card:
    the button's [data-id], [Number(discount.value)], the insurance
    selection ([None] for ['none'], otherwise its [Number]), and
    [Number(qty.value)]. *)
Record AddRequest := {
  productId : string;
  discount : number;
  insuranceSel : option number;
  qtyValue : number
}.

Inductive AddOutcome :=
| Added
| PermissionDenied          (* the guard's alert and early return *)
| NotFound (message : string).   (* the factory threw *)

Definition on_add_click (r : AddRequest) (s : App) : AddOutcome * App :=
  let qty := or_else (qtyValue r) (of_Z 1) in
  match ProductFactory.createProduct (productId r) with
  | Throw message => (NotFound message, s)
  | Return product =>
      if prescriptionRequired (fields product)
         && negb (Prescription.isVerified (verified s))
      then (PermissionDenied,
            {| cart := cart s; verified := verified s;
               env := alert PrescriptionNeeded (env s) |})
      else
        let product :=
          if ltb (of_Z 0) (discount r) then DiscountDecorator product (discount r)
          else product in
        let product :=
          match insuranceSel r with
          | None => product
          | Some coverage => InsuranceDecorator product (Some coverage)
          end in
        let '(cart', w) := addItem product (Some qty) (cart s) (env s) in
        (Added,
         {| cart := cart'; verified := verified s;
            env := set_checkoutDisabled (is_empty cart') w |})
  end.

(** The remove button rendered for line [idx]. *)
Definition on_remove_click (idx : nat) (s : App) : App :=
  let '(cart', w) := removeItem (of_Z (Z.of_nat idx)) (cart s) (env s) in
  {| cart := cart'; verified := verified s;
     env := set_checkoutDisabled (is_empty cart') w |}.

Definition on_verify_click (hasFile confirmed : bool) (s : App) : App :=
  let '(ok, verified', w) :=
    Prescription.verify hasFile confirmed (verified s) (env s) in
  {| cart := cart s; verified := verified';
     env := set_text "rx-status"
              (Literal (if ok then "Verified" else "Not verified")) w |}.

Definition on_checkout_click (s : App) : App :=
  if is_empty (cart s) then s
  else
    let w := alert (ThankYou (toFixed2 (getTotal (items (cart s))))) (env s) in
    let '(cart', w) := clear (cart s) w in
    {| cart := cart'; verified := verified s;
       env := set_checkoutDisabled true w |}.

(** Everything that can happen to the page: the four clicks, and direct
    calls of the operations the objects expose. *)
Inductive Action :=
| ClickAdd (r : AddRequest)
| ClickRemove (idx : nat)
| ClickVerify (hasFile confirmed : bool)
| ClickCheckout
| CallVerify (hasFile confirmed : bool)
| CallAddItem (p : Product) (q : option number)
| CallRemoveItem (index : number)
| CallClear
| CallAddObserver (o : Observer)
| CallRemoveObserver (o : Observer)
| CallNotify.

Definition on_cart (f : CartSubject -> Env -> CartSubject * Env) (s : App) : App :=
  let '(cart', w) := f (cart s) (env s) in
  {| cart := cart'; verified := verified s; env := w |}.

Definition step (s : App) (a : Action) : App :=
  match a with
  | ClickAdd r => snd (on_add_click r s)
  | ClickRemove idx => on_remove_click idx s
  | ClickVerify hasFile confirmed => on_verify_click hasFile confirmed s
  | ClickCheckout => on_checkout_click s
  | CallVerify hasFile confirmed =>
      let '(_, verified', w) :=
        Prescription.verify hasFile confirmed (verified s) (env s) in
      {| cart := cart s; verified := verified'; env := w |}
  | CallAddItem p q => on_cart (addItem p q) s
  | CallRemoveItem index => on_cart (removeItem index) s
  | CallClear => on_cart clear s
  | CallAddObserver o => on_cart (fun c w => (addObserver o c, w)) s
  | CallRemoveObserver o => on_cart (fun c w => (removeObserver o c, w)) s
  | CallNotify => on_cart (fun c w => (c, notify c w)) s
  end.

Definition run (s : App) (actions : list Action) : App := foldl step s actions.

(** ** Vocabulary of the statements *)

(** The percentage a decorator object stores. *)
Definition stored_percent (p : Product) : option number :=
  match p with
  | PlainProduct _ => None
  | Discounted _ percent => Some percent
  | Insured _ coveragePercent => Some coveragePercent
  end.

(** The calls one [notify] makes: one per registration of an observer that
    has an [update] method, in registration order, each given the cart. *)
Definition notified (c : CartSubject) : list (nat * list CartLine) :=
  map (fun o => (ref o, items c))
      (filter (fun o => is_Some (update o)) (observers c)).

(** What those calls write into the page. *)
Definition written (c : CartSubject) (dom : gmap string Text) : gmap string Text :=
  foldl (fun dom o => match update o with
                      | Some hook => hook (items c) dom
                      | None => dom
                      end) dom (observers c).

(** How many registrations of the object at address [r] have an [update]
    method. *)
Definition registrations (r : nat) (c : CartSubject) : nat :=
  length (filter (fun o => ref o = r)
                 (filter (fun o => is_Some (update o)) (observers c))).

(** How many of the calls [l] went to the object at address [r]. *)
Definition calls_to (r : nat) (l : list (nat * list CartLine)) : nat :=
  length (filter (fun e => fst e = r) l).

(** The actions that do not register the object at address [r]. *)
Definition keeps_out (r : nat) (a : Action) : Prop :=
  match a with
  | CallAddObserver o => ref o ≠ r
  | _ => True
  end.

(** ** Sample values *)

Definition base_product (price : number) : Product :=
  Product_new {| id := "sample"; name := "Sample"; basePrice := price;
                 prescriptionRequired := false |}.

Definition empty_env : Env :=
  {| textContent := ∅; checkoutDisabled := true; alerts := []; updates := [] |}.

(** A 50 base with Discount(10), then Insurance(30). *)
Definition fifty_discount_insurance : Product :=
  InsuranceDecorator (DiscountDecorator (base_product (of_Z 50)) (of_Z 10))
                     (Some (of_Z 30)).

(** Omeprazole's 9.95 with Discount(5), then Insurance(50). *)
Definition omeprazole_5_50 : Product :=
  InsuranceDecorator (DiscountDecorator (base_product (lit 995 100)) (of_Z 5))
                     (Some (of_Z 50)).

Definition line (price qty : Z) : CartLine :=
  {| product := base_product (of_Z price); qty := of_Z qty |}.

Definition two_lines : CartSubject :=
  {| items := [line 10 2; line 20 1]; observers := [] |}.

(** The page after [DOMContentLoaded]. *)
Definition loaded : App := init empty_env.

Definition amoxicillin_request : AddRequest :=
  {| productId := "amox500"; discount := of_Z 10;
     insuranceSel := Some (of_Z 30); qtyValue := of_Z 2 |}.

(** A total display registered three times, then removed. *)
Definition thrice_then_removed : CartSubject :=
  removeObserver (TotalDisplayObserver 0 "cart-total")
    (Nat.iter 3 (addObserver (TotalDisplayObserver 0 "cart-total")) CartSubject_new).

Definition amoxicillin : Product :=
  Product_new {| id := "amox500"; name := "Amoxicillin 500mg (20 caps)";
                 basePrice := lit 2499 100; prescriptionRequired := true |}.

(** A cart whose registry holds one total display twice, with an object
    that has no [update] method in between. *)
Definition two_displays : CartSubject :=
  {| items := [];
     observers := [TotalDisplayObserver 0 "cart-total";
                   {| ref := 1; update := None |};
                   TotalDisplayObserver 0 "cart-total"] |}.

(** ** The page's own runs *)

(** The four clicks, as opposed to direct calls of the objects. *)
Definition is_click (a : Action) : Prop :=
  match a with
  | ClickAdd _ | ClickRemove _ | ClickVerify _ _ | ClickCheckout => True
  | _ => False
  end.

(** Neither [NaN] nor an infinity. *)
Definition is_finite (x : number) : bool :=
  match x with
  | S754_zero _ | S754_finite _ _ _ => true
  | _ => false
  end.

(** A catalog product, bare or under a discount, an insurance, or a
    discount and then an insurance. *)
Definition chain_shape (p : Product) : Prop :=
  match p with
  | PlainProduct e
  | Discounted (PlainProduct e) _
  | Insured (PlainProduct e) _
  | Insured (Discounted (PlainProduct e) _) _ => e ∈ CATALOG
  | _ => False
  end.

(** What the page keeps true from one click to the next. *)
Definition page_ok (s : App) : Prop :=
  observers (cart s) = [TotalDisplayObserver 0 "cart-total"]
  /\ textContent (env s) !! "cart-total"
     = Some (Dollar (toFixed2 (getTotal (items (cart s)))))
  /\ Forall (fun l => leb (of_Z 1) (qty l) = true) (items (cart s))
  /\ Forall (fun l => chain_shape (product l)) (items (cart s))
  /\ Forall (fun l => prescriptionRequired (fields (product l)) = true ->
                      verified s = true) (items (cart s)).

(** The checkout button is disabled exactly when the cart is empty. *)
Definition button_ok (s : App) : Prop :=
  checkoutDisabled (env s) = is_empty (cart s).

(** A request for omeprazole whose quantity field does not hold a number. *)
Definition omeprazole_request : AddRequest :=
  {| productId := "omep20"; discount := of_Z 0; insuranceSel := None;
     qtyValue := NaN |}.

(** A visit: omeprazole is added, the prescription is verified, amoxicillin
    is added, and the first line is removed. *)
Definition visit : list Action :=
  [ClickAdd omeprazole_request; ClickVerify true true;
   ClickAdd amoxicillin_request; ClickRemove 0].

(** ** Names

    A name is kept in pieces: the characters the script writes, and the
    numbers it interpolates (each standing for its Number::toString
    digits). *)

Inductive NamePiece :=
| Chars (s : string)
| Digits (x : number).

Fixpoint getName (p : Product) : list NamePiece :=
  match p with
  | PlainProduct f => [Chars (name f)]
  | Discounted wrappee percent =>
      getName wrappee ++ [Chars " (−"; Digits percent; Chars "% discount)"]
  | Insured wrappee _ => getName wrappee ++ [Chars " (insurance applied)"]
  end.

(** The numbers the script interpolates into a name (its [Digits]
    pieces); digits that are part of the characters, as in a catalog name,
    are not among them. *)
Definition interpolated_numbers (pieces : list NamePiece) : list number :=
  omap (fun piece => match piece with
                     | Digits x => Some x
                     | Chars _ => None
                     end) pieces.

(** The percentages of the discounts in a chain, innermost first. *)
Fixpoint discount_percents (p : Product) : list number :=
  match p with
  | PlainProduct _ => []
  | Discounted wrappee percent => discount_percents wrappee ++ [percent]
  | Insured wrappee _ => discount_percents wrappee
  end.

(** The gate just verified, on the loaded page. *)
Definition verified_page : App := step loaded (CallVerify true true).

(** * Properties *)

(** ** Comparisons on numbers *)

Section Comparisons.

Lemma compare_antisym (x y : number) (c : comparison) :
  SFcompare x y = Some c -> SFcompare y x = Some (CompOpp c).
Proof.
  destruct x as [sx|sx| |sx mx ex], y as [sy|sy| |sy my ey]; simpl;
    try discriminate; intros [= <-];
    repeat match goal with s : bool |- _ => destruct s end;
    try reflexivity;
    rewrite (Z.compare_antisym ex ey);
    destruct (ex ?= ey); simpl; try reflexivity;
    rewrite (Pos.compare_cont_antisym mx my Eq); reflexivity.
Qed.

Lemma ltb_leb (x y : number) : ltb x y = true -> leb x y = true.
Proof.
  unfold ltb, leb, SFltb, SFleb.
  destruct (SFcompare x y) as [[]|]; congruence.
Qed.

Lemma ltb_asym (x y : number) : ltb x y = true -> ltb y x = false.
Proof.
  unfold ltb, SFltb. destruct (SFcompare x y) as [[]|] eqn:E; try discriminate.
  intros _. now rewrite (compare_antisym _ _ _ E).
Qed.

Lemma compare_Eq_finite (x : number) s m e :
  SFcompare x (S754_finite s m e) = Some Eq -> x = S754_finite s m e.
Proof.
  destruct x as [sx|sx| |sx mx ex]; simpl; try discriminate;
    try (destruct sx; discriminate); try (destruct s; discriminate).
  destruct sx, s; try discriminate;
    destruct (ex ?= e) eqn:E; try discriminate;
    apply Z.compare_eq in E; subst; intros [= H].
  - apply (f_equal CompOpp) in H. rewrite CompOpp_involutive in H. simpl in H.
    apply Pos.compare_eq in H. now subst.
  - apply Pos.compare_eq in H. now subst.
Qed.

End Comparisons.

(** ** Math.max, Math.min and the clamp of a percentage *)

Section Clamp.

Lemma max_pair (c x : number) :
  is_nan c = false -> is_neg_zero c = false ->
  Math.max [c; x] = if is_nan x then NaN else if ltb c x then x else c.
Proof.
  intros Hc Hz. unfold Math.max. simpl. rewrite Hc.
  assert (H1 : (if ltb neg_Infinity c then Some c else Some neg_Infinity) = Some c).
  { destruct c as [s|[]| |s m e]; try reflexivity; discriminate. }
  replace (match c with S754_zero false => false | _ => false end) with false
    by (destruct c as [[]| | |]; reflexivity).
  rewrite H1. simpl.
  destruct (is_nan x) eqn:Hx; [reflexivity|].
  replace (match x with
           | S754_zero false => match c with S754_zero true => true | _ => false end
           | _ => false
           end) with false.
  - destruct (ltb c x); reflexivity.
  - destruct x as [[]| | |]; try reflexivity.
    destruct c as [[]| | |]; try reflexivity; discriminate.
Qed.

Lemma min_pair (c x : number) :
  is_nan c = false -> is_zero c = false ->
  Math.min [c; x] = if is_nan x then NaN else if ltb x c then x else c.
Proof.
  intros Hc Hz. unfold Math.min. simpl. rewrite Hc.
  assert (H1 : (if ltb c Infinity then Some c else Some Infinity) = Some c).
  { destruct c as [s|[]| |s m e]; try reflexivity; discriminate. }
  replace (match c with S754_zero true => false | _ => false end) with false
    by (destruct c as [[]| | |]; reflexivity).
  rewrite H1. simpl.
  destruct (is_nan x) eqn:Hx; [reflexivity|].
  replace (match x with
           | S754_zero true => match c with S754_zero false => true | _ => false end
           | _ => false
           end) with false.
  - destruct (ltb x c); reflexivity.
  - destruct x as [[]| | |]; try reflexivity.
    destruct c as [[]| | |]; try reflexivity; discriminate.
Qed.

Lemma of_Z_0 : of_Z 0 = zero.
Proof. reflexivity. Qed.

Lemma of_Z_1 : of_Z 1 = one.
Proof. vm_compute. reflexivity. Qed.

Lemma of_Z_100 : of_Z 100 = hundred.
Proof. vm_compute. reflexivity. Qed.

(** The clamp, case by case. *)
Lemma clamp_percent_cases (x : number) :
  clamp_percent x =
    if is_nan x then NaN
    else if ltb x hundred then (if ltb zero x then x else zero)
    else hundred.
Proof.
  unfold clamp_percent. rewrite of_Z_0, of_Z_100.
  rewrite (min_pair hundred x) by reflexivity.
  destruct (is_nan x) eqn:Hx; [reflexivity|].
  rewrite max_pair by reflexivity.
  destruct (ltb x hundred); [rewrite Hx|]; reflexivity.
Qed.

Lemma clamp_percent_bounds (x : number) :
  is_nan x = false ->
  leb zero (clamp_percent x) = true /\ leb (clamp_percent x) hundred = true.
Proof.
  intros Hx. rewrite clamp_percent_cases, Hx.
  destruct (ltb x hundred) eqn:H100; [|split; reflexivity].
  destruct (ltb zero x) eqn:H0; [|split; reflexivity].
  split; now apply ltb_leb.
Qed.

Lemma clamp_percent_above (x : number) :
  ltb hundred x = true -> clamp_percent x = hundred.
Proof.
  intros H. rewrite clamp_percent_cases, (ltb_asym _ _ H).
  destruct x; try reflexivity; discriminate.
Qed.

Lemma clamp_percent_below (x : number) :
  ltb x zero = true -> clamp_percent x = zero.
Proof.
  intros H. rewrite clamp_percent_cases, (ltb_asym _ _ H).
  destruct x as [s|[]| |[] m e]; try reflexivity; discriminate.
Qed.

(** Inside the range the clamp keeps the value, except that [-0] becomes
    [+0]. *)
Lemma clamp_percent_inside (x : number) :
  leb zero x = true -> leb x hundred = true ->
  clamp_percent x = x \/ (is_zero x = true /\ clamp_percent x = zero).
Proof.
  intros H0 H100. rewrite clamp_percent_cases.
  assert (Hx : is_nan x = false) by (destruct x; try reflexivity; discriminate).
  rewrite Hx.
  unfold leb, SFleb in H0, H100. unfold ltb, SFltb.
  destruct (SFcompare x hundred) as [[]|] eqn:E; try discriminate.
  - left. symmetry. now apply compare_Eq_finite.
  - destruct (SFcompare zero x) as [[]|] eqn:E0; try discriminate.
    + right. split; [|reflexivity].
      destruct x as [s|[]| |[] m e]; try reflexivity; discriminate.
    + now left.
Qed.

End Clamp.

(** ** The price of a decorated product *)

Section Pricing.

(** C1, as the code has it: every layer of a modifier chain prices itself as
    round2 of its child's price times [1 - percent / 100], where percent is
    the layer's stored (clamped) percentage, so rounding happens at each
    layer.  Discount(10) then Insurance(30) on a 50 base gives 45.00 after
    the first layer and 31.50 after the second.  Rounding once at the end
    is a different function: on a 9.95 base with Discount(5) then
    Insurance(50) the chain gives 4.72 where a single rounding gives
    4.73. *)
Theorem price_rounds_at_each_layer :
  (forall wrappee percent,
      getPrice (DiscountDecorator wrappee percent)
      = round2 (mul (getPrice wrappee) (factor (clamp_percent percent))))
  /\ (forall wrappee coverage,
      getPrice (InsuranceDecorator wrappee coverage)
      = round2 (mul (getPrice wrappee)
                    (factor (clamp_percent (default (of_Z 30) coverage)))))
  /\ (forall wrappee percent,
      getPrice (Discounted wrappee percent)
      = round2 (mul (getPrice wrappee) (factor percent)))
  /\ (forall wrappee coveragePercent,
      getPrice (Insured wrappee coveragePercent)
      = round2 (mul (getPrice wrappee) (factor coveragePercent)))
  /\ getPrice (DiscountDecorator (base_product (of_Z 50)) (of_Z 10)) = of_Z 45
  /\ round2 (mul (of_Z 50) (lit 9 10)) = of_Z 45
  /\ getPrice fifty_discount_insurance = lit 3150 100
  /\ round2 (mul (of_Z 45) (lit 7 10)) = lit 3150 100
  /\ getPrice omeprazole_5_50 = lit 472 100
  /\ round2 (mul (mul (lit 995 100) (factor (of_Z 5))) (factor (of_Z 50)))
     = lit 473 100.
Proof.
  repeat split; try reflexivity; vm_compute; reflexivity.
Qed.

(** C1, the part that fails: at the 50 base the chain's 31.50 is also what
    50 * 0.9 * 0.7 rounded once gives, whether the factors are written as
    literals or computed as [1 - percent / 100]. *)
Lemma fifty_rounded_once_is_the_same :
  getPrice fifty_discount_insurance
  = round2 (mul (mul (of_Z 50) (lit 9 10)) (lit 7 10))
  /\ getPrice fifty_discount_insurance
     = round2 (mul (mul (of_Z 50) (factor (of_Z 10))) (factor (of_Z 30))).
Proof. split; vm_compute; reflexivity. Qed.

(** [-0] and [+0] give the same factor. *)
Lemma factor_zero (s : bool) : factor (S754_zero s) = factor zero.
Proof. destruct s; vm_compute; reflexivity. Qed.

Lemma reduce_price_inside (p x : number) :
  leb zero x = true -> leb x hundred = true ->
  reduce_price p (clamp_percent x) = round2 (mul p (factor x)).
Proof.
  intros H0 H100. unfold reduce_price.
  destruct (clamp_percent_inside x H0 H100) as [->|[Hz ->]]; [reflexivity|].
  destruct x as [s| | |]; try discriminate. now rewrite factor_zero.
Qed.

(** X25: for every percent that is a number (not [NaN]) the percentage a
    Discount or Insurance decorator stores lies in [0,100]; a percent
    above 100 is stored as 100 and one below 0 as 0; and for percent in
    [0,100] a Discount on a 100 base costs
    round2(100 * (1 - percent / 100)). *)
Theorem percent_is_clamped (wrappee : Product) (percent : number) :
  is_nan percent = false ->
  (exists stored,
      stored_percent (DiscountDecorator wrappee percent) = Some stored
      /\ stored_percent (InsuranceDecorator wrappee (Some percent)) = Some stored
      /\ leb (of_Z 0) stored = true /\ leb stored (of_Z 100) = true
      /\ (ltb (of_Z 100) percent = true -> stored = of_Z 100)
      /\ (ltb percent (of_Z 0) = true -> stored = of_Z 0))
  /\ (leb (of_Z 0) percent = true -> leb percent (of_Z 100) = true ->
      getPrice (DiscountDecorator (base_product (of_Z 100)) percent)
      = round2 (mul (of_Z 100) (sub (of_Z 1) (div percent (of_Z 100)))))
  /\ (ltb (of_Z 100) percent = true ->
      getPrice (DiscountDecorator wrappee percent)
      = getPrice (DiscountDecorator wrappee (of_Z 100)))
  /\ (ltb percent (of_Z 0) = true ->
      getPrice (DiscountDecorator wrappee percent)
      = getPrice (DiscountDecorator wrappee (of_Z 0))).
Proof.
  intros Hnan. rewrite of_Z_0, of_Z_100.
  destruct (clamp_percent_bounds percent Hnan) as [Hlo Hhi].
  repeat split.
  - exists (clamp_percent percent). repeat split; try assumption.
    + apply clamp_percent_above.
    + apply clamp_percent_below.
  - intros H0 H100. simpl. rewrite <- of_Z_100 at 2.
    now apply reduce_price_inside.
  - intros H. simpl. rewrite (clamp_percent_above _ H).
    rewrite <- of_Z_100 at 2. reflexivity.
  - intros H. simpl. rewrite (clamp_percent_below _ H).
    rewrite <- of_Z_0 at 2. reflexivity.
Qed.

(** 150 is stored as 100, -10 as 0, and 40 is kept. *)
Lemma percent_is_clamped_witness :
  stored_percent (DiscountDecorator (base_product (of_Z 100)) (of_Z 150))
  = Some (of_Z 100)
  /\ stored_percent (DiscountDecorator (base_product (of_Z 100)) (of_Z (-10)))
     = Some (of_Z 0)
  /\ getPrice (DiscountDecorator (base_product (of_Z 100)) (of_Z 40))
     = round2 (mul (of_Z 100) (sub (of_Z 1) (div (of_Z 40) (of_Z 100)))).
Proof.
  destruct (percent_is_clamped (base_product (of_Z 100)) (of_Z 150) eq_refl)
    as [(s1 & E1 & _ & _ & _ & A1 & _) _].
  destruct (percent_is_clamped (base_product (of_Z 100)) (of_Z (-10)) eq_refl)
    as [(s2 & E2 & _ & _ & _ & _ & B2) _].
  destruct (percent_is_clamped (base_product (of_Z 100)) (of_Z 40) eq_refl)
    as (_ & P & _).
  split; [|split].
  - rewrite E1. f_equal. apply A1. vm_compute. reflexivity.
  - rewrite E2. f_equal. apply B2. vm_compute. reflexivity.
  - apply P; vm_compute; reflexivity.
Defined.

Lemma reduce_price_NaN (p : number) : reduce_price p NaN = NaN.
Proof. unfold reduce_price. now destruct p. Qed.

(** C7, where the code misses it: the clamp lets [NaN] through.  For every
    wrapped product, a Discount or an Insurance constructed with a percent
    that is [NaN] (a non-numeric argument, or for Discount an omitted one)
    stores [NaN], which is neither at least 0 nor at most 100, and its
    price is [NaN]; an Insurance whose argument is omitted stores 30. *)
Theorem percent_NaN_slips_through (wrappee : Product) :
  stored_percent (DiscountDecorator wrappee NaN) = Some NaN
  /\ stored_percent (InsuranceDecorator wrappee (Some NaN)) = Some NaN
  /\ leb (of_Z 0) NaN = false
  /\ leb NaN (of_Z 100) = false
  /\ getPrice (DiscountDecorator wrappee NaN) = NaN
  /\ getPrice (InsuranceDecorator wrappee (Some NaN)) = NaN
  /\ stored_percent (InsuranceDecorator wrappee None) = Some (of_Z 30).
Proof.
  assert (Hclamp : clamp_percent NaN = NaN) by reflexivity.
  assert (H30 : clamp_percent (of_Z 30) = of_Z 30)
    by (vm_compute; reflexivity).
  split; [reflexivity|]. split; [reflexivity|].
  split; [reflexivity|]. split; [reflexivity|].
  split; [simpl; rewrite Hclamp; apply reduce_price_NaN|].
  split; [simpl; rewrite Hclamp; apply reduce_price_NaN|].
  unfold InsuranceDecorator, stored_percent, default. now rewrite H30.
Qed.

End Pricing.

(** ** The quantity of a stored line *)

Section Quantity.

Lemma quantity_cases (q : number) :
  Math.max [of_Z 1; q] = if is_nan q then NaN else if ltb one q then q else one.
Proof. rewrite of_Z_1. now apply max_pair. Qed.

(** C6, as the code has it: for every item and every qty that is a number
    (not [NaN]), [addItem] appends one line whose quantity is
    [Math.max(1, qty)]: it is at least 1, it is 1 when qty is below 1, it
    is qty itself when qty is at least 1, and it is an integer whenever
    qty is one. *)
Theorem addItem_quantity (p : Product) (q : number) (c : CartSubject) (w : Env) :
  is_nan q = false ->
  exists quantity,
    items (fst (addItem p (Some q) c w))
    = items c ++ [{| product := p; qty := quantity |}]
    /\ quantity = Math.max [of_Z 1; q]
    /\ leb (of_Z 1) quantity = true
    /\ (ltb q (of_Z 1) = true -> quantity = of_Z 1)
    /\ (leb (of_Z 1) q = true -> quantity = q)
    /\ (is_integer q = true -> is_integer quantity = true).
Proof.
  intros Hq. exists (Math.max [of_Z 1; q]).
  split; [reflexivity|]. split; [reflexivity|].
  rewrite quantity_cases, Hq, of_Z_1.
  repeat split.
  - destruct (ltb one q) eqn:E; [now apply ltb_leb | reflexivity].
  - intros H. now rewrite (ltb_asym _ _ H).
  - unfold leb, SFleb, ltb, SFltb.
    destruct (SFcompare one q) as [[]|] eqn:E; try discriminate; intros _.
    + apply compare_antisym in E. simpl in E.
      symmetry. now apply compare_Eq_finite.
    + reflexivity.
  - intros H. destruct (ltb one q); [assumption | reflexivity].
Qed.

(** The examples of C6: a qty of 0 or of -5 is stored as 1. *)
Lemma addItem_quantity_witness :
  map qty (items (fst (addItem (base_product (of_Z 10)) (Some (of_Z 0))
                               CartSubject_new empty_env))) = [of_Z 1]
  /\ map qty (items (fst (addItem (base_product (of_Z 10)) (Some (of_Z (-5)))
                                  CartSubject_new empty_env))) = [of_Z 1].
Proof.
  destruct (addItem_quantity (base_product (of_Z 10)) (of_Z 0)
              CartSubject_new empty_env eq_refl) as (q0 & E0 & _ & _ & L0 & _).
  destruct (addItem_quantity (base_product (of_Z 10)) (of_Z (-5))
              CartSubject_new empty_env eq_refl) as (q5 & E5 & _ & _ & L5 & _).
  split.
  - rewrite E0. simpl. f_equal. apply L0. vm_compute. reflexivity.
  - rewrite E5. simpl. f_equal. apply L5. vm_compute. reflexivity.
Defined.

(** C6, the part that fails: a qty of 2.5 is stored as 2.5, which is not
    an integer. *)
Lemma addItem_keeps_fractions :
  map qty (items (fst (addItem (base_product (of_Z 10)) (Some (lit 25 10))
                               CartSubject_new empty_env))) = [lit 25 10]
  /\ is_integer (lit 25 10) = false.
Proof. split; vm_compute; reflexivity. Qed.

(** A qty of [NaN] is stored as [NaN]; the Add-to-Cart handler replaces it
    by 1 before the call. *)
Lemma addItem_NaN :
  map qty (items (fst (addItem (base_product (of_Z 10)) (Some NaN)
                               CartSubject_new empty_env))) = [NaN]
  /\ or_else NaN (of_Z 1) = of_Z 1.
Proof. split; reflexivity. Qed.

End Quantity.

(** ** Removing a line *)

Section Remove.

Context {A : Type}.

Lemma splice1_beyond (start : number) (i : Z) (l : list A) :
  ToIntegerOrInfinity start = Int i -> Z.of_nat (length l) <= i ->
  splice1 start l = l.
Proof.
  intros E H. unfold splice1. rewrite E.
  destruct (Z.ltb_spec i 0); [lia|].
  rewrite Z.min_r by lia.
  replace (Z.of_nat (length l) - Z.of_nat (length l)) with 0 by lia.
  simpl. rewrite Z.add_0_r, Nat2Z.id.
  now rewrite take_ge, drop_ge, app_nil_r.
Qed.

Lemma splice1_inside (start : number) (i : Z) (l : list A) :
  ToIntegerOrInfinity start = Int i -> 0 <= i < Z.of_nat (length l) ->
  splice1 start l = delete (Z.to_nat i) l.
Proof.
  intros E H. unfold splice1. rewrite E.
  destruct (Z.ltb_spec i 0); [lia|].
  rewrite Z.min_l by lia.
  rewrite (Z.min_l 1) by lia. rewrite Z.max_r by lia.
  rewrite delete_take_drop. do 2 f_equal. lia.
Qed.

Lemma splice1_from_end (start : number) (i : Z) (l : list A) :
  ToIntegerOrInfinity start = Int i -> - Z.of_nat (length l) <= i < 0 ->
  splice1 start l = delete (Z.to_nat (Z.of_nat (length l) + i)) l.
Proof.
  intros E H. unfold splice1. rewrite E.
  destruct (Z.ltb_spec i 0); [|lia].
  rewrite Z.max_l by lia.
  rewrite (Z.min_l 1) by lia. rewrite Z.max_r by lia.
  rewrite delete_take_drop. do 2 f_equal. lia.
Qed.


End Remove.

Section RemoveItem.




End RemoveItem.

(** ** Notification *)

Section Notify.

Lemma foldl_call_update (c : CartSubject) (l : list Observer) (w : Env) :
  updates (foldl (call_update c) w l)
  = updates w
    ++ map (fun o => (ref o, items c)) (filter (fun o => is_Some (update o)) l)
  /\ alerts (foldl (call_update c) w l) = alerts w
  /\ checkoutDisabled (foldl (call_update c) w l) = checkoutDisabled w
  /\ textContent (foldl (call_update c) w l)
     = foldl (fun dom o => match update o with
                           | Some hook => hook (items c) dom
                           | None => dom
                           end) (textContent w) l.
Proof.
  revert w. induction l as [|o l IH]; intros w; simpl.
  - now rewrite app_nil_r.
  - destruct (IH (call_update c w o)) as (U & Al & Ch & Tx).
    rewrite U, Al, Ch, Tx. unfold call_update.
    destruct (update o) as [hook|] eqn:E.
    + rewrite filter_cons_True by (rewrite E; eauto). simpl.
      now rewrite <- app_assoc.
    + rewrite filter_cons_False by (rewrite E; apply is_Some_None). easy.
Qed.

Lemma notify_updates (c : CartSubject) (w : Env) :
  updates (notify c w) = updates w ++ notified c.
Proof. apply foldl_call_update. Qed.

Lemma notify_written (c : CartSubject) (w : Env) :
  textContent (notify c w) = written c (textContent w).
Proof. apply foldl_call_update. Qed.

Lemma calls_per_registration (r : nat) (c : CartSubject) :
  calls_to r (notified c) = registrations r c.
Proof.
  unfold calls_to, notified, registrations.
  induction (filter (fun o => is_Some (update o)) (observers c)) as [|o k IH];
    [reflexivity|].
  simpl map. destruct (decide (ref o = r)) as [Heq|Hne].
  - rewrite !filter_cons_True by assumption. simpl. now rewrite IH.
  - rewrite !filter_cons_False by assumption. exact IH.
Qed.

(** C8: each of [addItem], [removeItem] and [clear] returns with the world
    in which every registered observer's [update] has been called, once
    per registration and in registration order, each call given the cart as
    the operation left it; the registry itself is untouched. *)
Theorem mutation_notifies_observers
    (p : Product) (q : option number) (index : number)
    (c : CartSubject) (w : Env) (op : CartSubject * Env) :
  op ∈ [addItem p q c w; removeItem index c w; clear c w] ->
  observers (fst op) = observers c
  /\ updates (snd op) = updates w ++ notified (fst op)
  /\ map fst (notified (fst op))
     = map ref (filter (fun o => is_Some (update o)) (observers c))
  /\ Forall (fun e => snd e = items (fst op)) (notified (fst op))
  /\ (forall r : nat, calls_to r (notified (fst op)) = registrations r c)
  /\ textContent (snd op) = written (fst op) (textContent w).
Proof.
  intros Hop.
  assert (H : exists c', op = (c', notify c' w) /\ observers c' = observers c).
  { repeat (apply elem_of_cons in Hop as [->|Hop]);
      [eexists; split; [reflexivity|reflexivity] ..|].
    now apply elem_of_nil in Hop. }
  destruct H as (c' & -> & Ho). simpl.
  split; [exact Ho|]. split; [apply notify_updates|].
  split; [|split; [|split]].
  - unfold notified. rewrite Ho, <- list_fmap_compose. reflexivity.
  - unfold notified. apply Forall_fmap, Forall_forall. now intros o _.
  - intros r. rewrite calls_per_registration. unfold registrations. now rewrite Ho.
  - apply notify_written.
Qed.

(** With one total display registered twice and an object without
    [update] between the two, an [addItem] makes two calls, both to the
    display. *)
Lemma mutation_notifies_observers_witness :
  map fst (updates (snd (addItem amoxicillin None two_displays empty_env)))
  = [0%nat; 0%nat].
Proof.
  destruct (mutation_notifies_observers amoxicillin None (of_Z 0) two_displays
              empty_env (addItem amoxicillin None two_displays empty_env))
    as (_ & Hupdates & Horder & _).
  - apply list_elem_of_here.
  - rewrite Hupdates.
    change (updates empty_env) with (@nil (nat * list CartLine)).
    rewrite app_nil_l, Horder. reflexivity.
Defined.

End Notify.

(** ** The page, one action at a time *)

Section Steps.

Ltac open_step s a :=
  destruct a as [r|idx|hasFile confirmed| |hasFile confirmed|p q|index| |o|o| ];
  unfold step, on_add_click, on_remove_click, on_verify_click,
    on_checkout_click, on_cart, Prescription.verify, Prescription.isVerified,
    addItem, removeItem, clear;
  repeat match goal with
    | |- context [ProductFactory.createProduct ?x] =>
        destruct (ProductFactory.createProduct x)
    | |- context [prescriptionRequired ?f && negb ?v] =>
        destruct (prescriptionRequired f && negb v)
    | |- context [is_empty (cart s)] => destruct (is_empty (cart s))
    | |- context [negb hasFile] => destruct hasFile
    | |- context [negb confirmed] => destruct confirmed
    end;
  simpl.

Lemma step_verified (s : App) (a : Action) :
  verified s = true -> verified (step s a) = true.
Proof. intros H. open_step s a; first [assumption | reflexivity]. Qed.

Lemma step_observers (s : App) (a : Action) :
  observers (cart (step s a))
  = match a with
    | CallAddObserver o => observers (cart s) ++ [o]
    | CallRemoveObserver o =>
        filter (fun o' => ref o' ≠ ref o) (observers (cart s))
    | _ => observers (cart s)
    end.
Proof. open_step s a; reflexivity. Qed.

(** An action only adds calls, and only to objects registered when it
    starts. *)
Lemma step_updates (s : App) (a : Action) :
  exists new,
    updates (env (step s a)) = updates (env s) ++ new
    /\ forall e, e ∈ new -> exists o, o ∈ observers (cart s) /\ ref o = fst e.
Proof.
  assert (Hnone : exists new : list (nat * list CartLine),
             updates (env s) = updates (env s) ++ new
             /\ forall e, e ∈ new ->
                  exists o, o ∈ observers (cart s) /\ ref o = fst e).
  { exists []. split; [now rewrite app_nil_r|]. intros e He.
    now apply elem_of_nil in He. }
  assert (Hnotify : forall c' w,
             observers c' = observers (cart s) -> updates w = updates (env s) ->
             exists new, updates (notify c' w) = updates (env s) ++ new
               /\ forall e, e ∈ new ->
                    exists o, o ∈ observers (cart s) /\ ref o = fst e).
  { intros c' w Ho Hu. eexists. rewrite notify_updates, Hu.
    unfold notified. rewrite Ho.
    split; [reflexivity|]. intros e He.
    apply list_elem_of_fmap in He as (o & -> & Ho').
    apply list_elem_of_filter in Ho' as [_ Ho']. now exists o. }
  open_step s a; try exact Hnone; now apply Hnotify.
Qed.

(** While an object is not registered and no action registers it, it
    receives no call. *)
Lemma run_unregistered (r : nat) (actions : list Action) (s : App) :
  (forall o, o ∈ observers (cart s) -> ref o ≠ r) ->
  Forall (keeps_out r) actions ->
  exists new,
    updates (env (run s actions)) = updates (env s) ++ new
    /\ Forall (fun e => fst e ≠ r) new.
Proof.
  revert s. induction actions as [|a actions IH]; intros s Hs Hk.
  - exists []. split; [now rewrite app_nil_r | constructor].
  - apply Forall_cons in Hk as [Ha Hk].
    destruct (step_updates s a) as (new1 & E1 & H1).
    destruct (IH (step s a)) as (new2 & E2 & H2); [|assumption|].
    + intros o Ho. rewrite step_observers in Ho.
      destruct a; try (now apply Hs).
      * apply elem_of_app in Ho as [Ho|Ho]; [now apply Hs|].
        apply list_elem_of_singleton in Ho. now subst.
      * apply list_elem_of_filter in Ho as [_ Ho]. now apply Hs.
    + exists (new1 ++ new2). split.
      * change (run s (a :: actions)) with (run (step s a) actions).
        now rewrite E2, E1, app_assoc.
      * apply Forall_app. split; [|assumption].
        apply Forall_forall. intros e He.
        destruct (H1 e He) as (o & Ho & <-). now apply Hs.
Qed.

End Steps.

(** ** The observer registry *)

Section Registry.

Lemma addObserver_iter (o : Observer) (n : nat) (c : CartSubject) :
  observers (Nat.iter n (addObserver o) c) = observers c ++ replicate n o
  /\ items (Nat.iter n (addObserver o) c) = items c.
Proof.
  induction n as [|n [IHo IHi]]; simpl.
  - now rewrite app_nil_r.
  - rewrite IHo, IHi. split; [|reflexivity].
    rewrite <- app_assoc. f_equal.
    clear. induction n as [|n IH]; [reflexivity|]. simpl. now rewrite IH.
Qed.

Lemma filter_replicate_self (o : Observer) (n : nat) :
  filter (fun o' => ref o' ≠ ref o) (replicate n o) = [].
Proof.
  induction n as [|n IH]; [reflexivity|]. simpl.
  now rewrite filter_cons_False by (intros H; now apply H).
Qed.

(** C9: [addObserver] appends, also an observer that is already there;
    [removeObserver] keeps exactly the registrations of other objects, in
    order; so after an observer was registered [n] times and removed once
    it is not in the registry, and no action (short of registering it
    again) makes a call to it. *)
Theorem observer_registry (o : Observer) (n : nat) (c : CartSubject) :
  observers (addObserver o c) = observers c ++ [o]
  /\ observers (Nat.iter n (addObserver o) c) = observers c ++ replicate n o
  /\ observers (removeObserver o c)
     = filter (fun o' => ref o' ≠ ref o) (observers c)
  /\ observers (removeObserver o (Nat.iter n (addObserver o) c))
     = observers (removeObserver o c)
  /\ (forall o', o' ∈ observers (removeObserver o (Nat.iter n (addObserver o) c)) ->
        ref o' ≠ ref o)
  /\ forall (s : App) (actions : list Action),
       cart s = removeObserver o (Nat.iter n (addObserver o) c) ->
       Forall (keeps_out (ref o)) actions ->
       exists new,
         updates (env (run s actions)) = updates (env s) ++ new
         /\ Forall (fun e => fst e ≠ ref o) new.
Proof.
  assert (Hrm : forall o',
             o' ∈ observers (removeObserver o (Nat.iter n (addObserver o) c)) ->
             ref o' ≠ ref o).
  { intros o' Ho'. simpl in Ho'. now apply list_elem_of_filter in Ho' as [? _]. }
  repeat split; try assumption.
  - apply addObserver_iter.
  - simpl. destruct (addObserver_iter o n c) as [-> _].
    rewrite filter_app.
    now rewrite filter_replicate_self, app_nil_r.
  - intros s actions Hs Hk. apply run_unregistered; [|assumption].
    rewrite Hs. exact Hrm.
Qed.

(** A total display registered three times and removed once hears nothing
    of an add, a removal and a checkout. *)
Lemma observer_registry_witness :
  exists new,
    updates (env (run {| cart := thrice_then_removed; verified := false;
                         env := empty_env |}
                      [CallAddItem amoxicillin None; CallRemoveItem (of_Z 0);
                       CallAddItem amoxicillin None; ClickCheckout]))
    = updates empty_env ++ new
    /\ Forall (fun e => fst e ≠ 0%nat) new.
Proof.
  destruct (observer_registry (TotalDisplayObserver 0 "cart-total") 3
              CartSubject_new) as (_ & _ & _ & _ & _ & H).
  apply (H {| cart := thrice_then_removed; verified := false; env := empty_env |}).
  - reflexivity.
  - repeat constructor.
Defined.

End Registry.

(** ** The prescription gate *)

Section Gate.

(** C3: [verify] returns true exactly when both arguments are true; when it
    returns false the state is what it was, when it returns true the state
    is Verified.  The two refusals raise different alerts.  From the loaded
    page, verify(false, true) and verify(true, false) leave the gate
    unverified, verify(true, true) verifies it, and a later
    verify(false, false) does not undo that. *)
Theorem verify_both_or_nothing (hasFile confirmed before : bool) (w : Env) :
  let '(ok, after, w') := Prescription.verify hasFile confirmed before w in
  (ok = true <-> hasFile = true /\ confirmed = true)
  /\ (ok = false -> after = before)
  /\ (ok = true -> after = true /\ w' = w)
  /\ (hasFile = false -> alerts w' = alerts w ++ [FileRequired])
  /\ (hasFile = true -> confirmed = false ->
      alerts w' = alerts w ++ [ConfirmationRequired])
  /\ verified (run loaded [CallVerify false true; CallVerify true false]) = false
  /\ verified (run loaded [CallVerify false true; CallVerify true false;
                            CallVerify true true]) = true
  /\ verified (run loaded [CallVerify false true; CallVerify true false;
                            CallVerify true true; CallVerify false false]) = true.
Proof.
  destruct hasFile, confirmed; simpl; repeat split; intros; try easy;
    intuition congruence.
Qed.

(** C4: once the gate is verified it stays verified, whatever calls and
    clicks follow. *)
Theorem verified_is_terminal (s : App) (actions : list Action) :
  verified s = true ->
  Prescription.isVerified (verified (run s actions)) = true.
Proof.
  unfold Prescription.isVerified. revert s.
  induction actions as [|a actions IH]; intros s H.
  - exact H.
  - change (run s (a :: actions)) with (run (step s a) actions).
    apply IH. now apply step_verified.
Qed.

Lemma verified_is_terminal_witness :
  Prescription.isVerified
    (verified (run (step loaded (CallVerify true true))
                   [CallVerify false false; ClickVerify false true;
                    ClickAdd amoxicillin_request; CallRemoveItem (of_Z 0);
                    CallAddItem amoxicillin None; CallClear; ClickCheckout;
                    CallVerify true false])) = true.
Proof. apply verified_is_terminal. reflexivity. Defined.

Lemma add_when_verified (r : AddRequest) (s : App) (found : Product) :
  ProductFactory.createProduct (productId r) = Return found ->
  verified s = true ->
  fst (on_add_click r s) = Added
  /\ verified (snd (on_add_click r s)) = true
  /\ exists l,
       items (cart (snd (on_add_click r s))) = items (cart s) ++ [l]
       /\ fields (product l) = fields found
       /\ qty l = Math.max [of_Z 1; or_else (qtyValue r) (of_Z 1)].
Proof.
  intros Hfound Hv. unfold on_add_click. rewrite Hfound, Hv. simpl.
  rewrite andb_false_r. simpl. repeat split.
  eexists. split; [reflexivity|]. split; [|reflexivity]. simpl.
  destruct (insuranceSel r); simpl;
    destruct (ltb _ (discount r)); reflexivity.
Qed.

(** C2: for a request whose product requires a prescription, while the gate
    is unverified the Add-to-Cart flow is refused: the outcome is
    PermissionDenied, the cart is the same (no line appended), no observer
    is called, and one alert is shown.  After verify(true, true) the same
    request appends one line holding that product. *)
Theorem prescription_guard (r : AddRequest) (s : App) (found : Product) :
  ProductFactory.createProduct (productId r) = Return found ->
  prescriptionRequired (fields found) = true ->
  verified s = false ->
  (fst (on_add_click r s) = PermissionDenied
   /\ cart (snd (on_add_click r s)) = cart s
   /\ updates (env (snd (on_add_click r s))) = updates (env s)
   /\ textContent (env (snd (on_add_click r s))) = textContent (env s)
   /\ alerts (env (snd (on_add_click r s))) = alerts (env s) ++ [PrescriptionNeeded]
   /\ verified (snd (on_add_click r s)) = false)
  /\ (verified (step s (CallVerify true true)) = true
      /\ cart (step s (CallVerify true true)) = cart s
      /\ fst (on_add_click r (step s (CallVerify true true))) = Added
      /\ exists l,
           items (cart (snd (on_add_click r (step s (CallVerify true true)))))
           = items (cart s) ++ [l]
           /\ fields (product l) = fields found).
Proof.
  intros Hfound Hrx Hv. split.
  - unfold on_add_click. rewrite Hfound, Hrx, Hv. simpl. now repeat split.
  - destruct (add_when_verified r (step s (CallVerify true true)) found Hfound
                eq_refl) as (Hadd & _ & l & Hl & Hf & _).
    repeat split; try assumption. now exists l.
Qed.

(** Amoxicillin on the freshly loaded page: refused, then added with a
    quantity of 2 once the prescription is verified. *)
Lemma prescription_guard_witness :
  fst (on_add_click amoxicillin_request loaded) = PermissionDenied
  /\ items (cart (snd (on_add_click amoxicillin_request loaded))) = []
  /\ fst (on_add_click amoxicillin_request (step loaded (CallVerify true true)))
     = Added
  /\ length (items (cart (snd (on_add_click amoxicillin_request
                                 (step loaded (CallVerify true true)))))) = 1%nat.
Proof.
  destruct (prescription_guard amoxicillin_request loaded amoxicillin
              eq_refl eq_refl eq_refl)
    as ((Hdenied & Hcart & _) & _ & _ & Hadded & l & Hl & _).
  split; [exact Hdenied|]. split; [now rewrite Hcart|].
  split; [exact Hadded|]. now rewrite Hl.
Defined.

(** C10: a direct [addItem] has no failure result and looks at no
    prescription state: for every product and both gate states it appends
    the line, keeps the registry and notifies every registered observer
    (one call per registration with an [update] method, in registration
    order, each given the cart with the new line), and leaves the gate as
    it was; the cart and the world it returns are the same whatever the
    gate holds.  On the freshly loaded, unverified page the very product
    the Add-to-Cart handler refuses is appended by a direct call. *)
Theorem addItem_consults_no_gate (p : Product) (q : option number) (s : App) :
  addItem p q (cart s) (env s)
  = (cart (step s (CallAddItem p q)), env (step s (CallAddItem p q)))
  /\ items (cart (step s (CallAddItem p q)))
     = items (cart s)
       ++ [{| product := p; qty := Math.max [of_Z 1; default (of_Z 1) q] |}]
  /\ observers (cart (step s (CallAddItem p q))) = observers (cart s)
  /\ verified (step s (CallAddItem p q)) = verified s
  /\ env (step s (CallAddItem p q)) = notify (cart (step s (CallAddItem p q))) (env s)
  /\ updates (env (step s (CallAddItem p q)))
     = updates (env s) ++ notified (cart (step s (CallAddItem p q)))
  /\ updates (env (step s (CallAddItem p q)))
     = updates (env s)
       ++ map (fun o =>
                 (ref o,
                  items (cart s)
                  ++ [{| product := p;
                         qty := Math.max [of_Z 1; default (of_Z 1) q] |}]))
              (filter (fun o => is_Some (update o)) (observers (cart s)))
  /\ (forall r : nat,
        calls_to r (notified (cart (step s (CallAddItem p q))))
        = registrations r (cart s))
  /\ textContent (env (step s (CallAddItem p q)))
     = foldl (fun dom o =>
                match update o with
                | Some hook =>
                    hook (items (cart s)
                          ++ [{| product := p;
                                 qty := Math.max [of_Z 1; default (of_Z 1) q] |}])
                         dom
                | None => dom
                end) (textContent (env s)) (observers (cart s))
  /\ alerts (env (step s (CallAddItem p q))) = alerts (env s)
  /\ (forall gate : bool,
        cart (step {| cart := cart s; verified := gate; env := env s |}
                   (CallAddItem p q))
        = cart (step s (CallAddItem p q))
        /\ env (step {| cart := cart s; verified := gate; env := env s |}
                     (CallAddItem p q))
           = env (step s (CallAddItem p q)))
  /\ ProductFactory.createProduct "amox500" = Return amoxicillin
  /\ prescriptionRequired (fields amoxicillin) = true
  /\ verified loaded = false
  /\ fst (on_add_click amoxicillin_request loaded) = PermissionDenied
  /\ map product (items (cart (step loaded (CallAddItem amoxicillin None))))
     = [amoxicillin].
Proof.
  set (l := {| product := p; qty := Math.max [of_Z 1; default (of_Z 1) q] |}).
  set (c' := {| items := items (cart s) ++ [l]; observers := observers (cart s) |}).
  assert (Hcart : cart (step s (CallAddItem p q)) = c') by reflexivity.
  assert (Henv : env (step s (CallAddItem p q)) = notify c' (env s))
    by reflexivity.
  rewrite Hcart, Henv.
  split; [reflexivity|]. split; [reflexivity|]. split; [reflexivity|].
  split; [reflexivity|]. split; [reflexivity|].
  split; [apply notify_updates|].
  split; [apply notify_updates|].
  split; [intros r; apply (calls_per_registration r c')|].
  split; [apply (notify_written c')|].
  split; [apply foldl_call_update|].
  split; [intros gate; split; reflexivity|].
  repeat split.
Qed.

End Gate.

(** * Further properties *)

(** ** The catalog and the factory *)

Section Factory.

Lemma find_in_catalog (pid : string) :
  match List.find (fun p => String.eqb (id p) pid) CATALOG with
  | Some e => e ∈ CATALOG /\ id e = pid
  | None => forall e, e ∈ CATALOG -> id e ≠ pid
  end.
Proof.
  destruct (List.find _ CATALOG) as [e|] eqn:E.
  - apply List.find_some in E as [Hin Heq].
    split; [now apply list_elem_of_In | now apply String.eqb_eq].
  - intros e He Hid. apply list_elem_of_In in He.
    pose proof (List.find_none _ _ E e He) as H. simpl in H.
    apply String.eqb_neq in H. contradiction.
Qed.

Lemma factory_returns_plain (pid : string) :
  match ProductFactory.createProduct pid with
  | Return p => exists e, e ∈ CATALOG /\ p = PlainProduct e
  | Throw _ => True
  end.
Proof.
  unfold ProductFactory.createProduct.
  pose proof (find_in_catalog pid) as H.
  destruct (List.find _ CATALOG) as [e|]; [|exact I].
  exists e. now split.
Qed.

(** X1: [createProduct] returns only what the catalog holds under the
    requested id: an undecorated product made of that entry, priced at the
    entry's base price; it throws, naming the id, exactly when no entry
    has that id. *)
Theorem createProduct_looks_up (pid : string) :
  match ProductFactory.createProduct pid with
  | Return p =>
      exists e, e ∈ CATALOG /\ id e = pid /\ p = PlainProduct e
                /\ getPrice p = basePrice e
                /\ prescriptionRequired (fields p) = prescriptionRequired e
  | Throw message =>
      message = "Unknown product id: " +:+ pid
      /\ forall e, e ∈ CATALOG -> id e ≠ pid
  end.
Proof.
  unfold ProductFactory.createProduct.
  pose proof (find_in_catalog pid) as H.
  destruct (List.find _ CATALOG) as [e|].
  - destruct H as [Hin Hid]. exists e. now repeat split.
  - now split.
Qed.

(** X2: every entry of the catalog is found again under its own id (the
    ids are distinct), so the factory returns that very entry. *)
Theorem createProduct_of_entry (e : Fields) :
  e ∈ CATALOG -> ProductFactory.createProduct (id e) = Return (Product_new e).
Proof.
  intros He. unfold CATALOG in He.
  repeat (apply elem_of_cons in He as [->|He]; [reflexivity|]).
  now apply elem_of_nil in He.
Qed.

Lemma createProduct_of_entry_witness :
  ProductFactory.createProduct "omep20"
  = Return (Product_new {| id := "omep20"; name := "Omeprazole 20mg (14 caps)";
                           basePrice := lit 995 100;
                           prescriptionRequired := false |}).
Proof.
  apply (createProduct_of_entry
           {| id := "omep20"; name := "Omeprazole 20mg (14 caps)";
              basePrice := lit 995 100; prescriptionRequired := false |}).
  unfold CATALOG. do 3 apply list_elem_of_further. apply list_elem_of_here.
Defined.

End Factory.

(** ** More on percentages and prices *)

Section MorePricing.

(** X3: clamping a percentage twice is clamping it once, for every number
    ([NaN] and the zeros included). *)
Theorem clamp_percent_idempotent (x : number) :
  clamp_percent (clamp_percent x) = clamp_percent x.
Proof.
  rewrite (clamp_percent_cases x).
  destruct (is_nan x) eqn:Hx; [reflexivity|].
  destruct (ltb x hundred) eqn:H100; [|reflexivity].
  destruct (ltb zero x) eqn:H0; [|reflexivity].
  rewrite clamp_percent_cases, Hx, H100, H0. reflexivity.
Qed.

Lemma clamp_percent_full (percent : number) :
  leb (of_Z 100) percent = true -> clamp_percent percent = hundred.
Proof.
  rewrite of_Z_100. unfold leb, SFleb.
  destruct (SFcompare hundred percent) as [[]|] eqn:E; try discriminate; intros _.
  - apply compare_antisym in E. simpl in E.
    apply compare_Eq_finite in E. now subst.
  - apply clamp_percent_above. unfold ltb, SFltb. now rewrite E.
Qed.

Lemma reduce_price_full (p : number) :
  reduce_price p hundred = if is_finite p then zero else NaN.
Proof.
  unfold reduce_price.
  replace (factor hundred) with zero by (vm_compute; reflexivity).
  destruct p as [s|s| |s m e]; try reflexivity; destruct s; reflexivity.
Qed.

(** X4: a discount or an insurance coverage of 100 percent or more makes
    the price [+0] when the wrapped price is finite, and [NaN] when the
    wrapped price is an infinity or [NaN]. *)
Theorem full_percentage_is_free (wrappee : Product) (percent : number) :
  leb (of_Z 100) percent = true ->
  getPrice (DiscountDecorator wrappee percent)
  = (if is_finite (getPrice wrappee) then zero else NaN)
  /\ getPrice (InsuranceDecorator wrappee (Some percent))
     = (if is_finite (getPrice wrappee) then zero else NaN).
Proof.
  intros H. simpl. rewrite (clamp_percent_full _ H).
  split; apply reduce_price_full.
Qed.

Lemma full_percentage_is_free_witness :
  getPrice (DiscountDecorator amoxicillin (of_Z 250)) = zero.
Proof.
  apply (full_percentage_is_free amoxicillin (of_Z 250)).
  vm_compute. reflexivity.
Defined.

End MorePricing.

(** ** More on removing lines *)

Section MoreRemove.

Lemma splice1_at {A : Type} (a : Z) (l : list A) :
  0 <= a <= Z.of_nat (length l) ->
  take (Z.to_nat a) l
    ++ drop (Z.to_nat (a + Z.max 0 (Z.min 1 (Z.of_nat (length l) - a)))) l
  = if a <? Z.of_nat (length l) then delete (Z.to_nat a) l else l.
Proof.
  intros Ha. destruct (Z.ltb_spec a (Z.of_nat (length l))).
  - rewrite Z.min_l, Z.max_r by lia. rewrite delete_take_drop.
    do 2 f_equal. lia.
  - replace a with (Z.of_nat (length l)) by lia.
    rewrite Z.sub_diag. simpl. rewrite Z.add_0_r, Nat2Z.id.
    now rewrite take_ge, drop_ge, app_nil_r.
Qed.

Lemma splice1_cases {A : Type} (start : number) (l : list A) :
  splice1 start l = l
  \/ exists k : nat, (k < length l)%nat /\ splice1 start l = delete k l.
Proof.
  unfold splice1.
  set (len := Z.of_nat (length l)).
  set (a := match ToIntegerOrInfinity start with
            | NegInf => 0
            | Int relativeStart =>
                if relativeStart <? 0 then Z.max (len + relativeStart) 0
                else Z.min relativeStart len
            | PosInf => len
            end).
  assert (Ha : 0 <= a <= len).
  { subst a len. destruct (ToIntegerOrInfinity start) as [|rs|]; try lia.
    destruct (Z.ltb_spec rs 0); lia. }
  subst len. rewrite (splice1_at a l Ha).
  destruct (Z.ltb_spec a (Z.of_nat (length l))); [right|now left].
  exists (Z.to_nat a). split; [lia|reflexivity].
Qed.

(** X5: whatever the index, [removeItem] removes at most one line: the
    lines afterwards are the lines before, or the lines before without the
    one at some position; the rest keep their order. *)
Theorem removeItem_at_most_one (index : number) (c : CartSubject) (w : Env) :
  (items (fst (removeItem index c w)) = items c
   \/ exists k : nat, (k < length (items c))%nat
        /\ items (fst (removeItem index c w)) = delete k (items c))
  /\ items (fst (removeItem index c w)) `sublist_of` items c
  /\ (length (items c) <= S (length (items (fst (removeItem index c w)))))%nat.
Proof.
  simpl. destruct (splice1_cases index (items c)) as [->|(k & Hk & ->)].
  - split; [now left|]. split; [reflexivity|lia].
  - split; [right; now exists k|]. split; [apply sublist_delete|].
    rewrite length_delete by (now apply lookup_lt_is_Some). lia.
Qed.

(** X6: an index that is no integer: [NaN] (as from a missing or
    non-numeric argument) and -Infinity remove the first line, +Infinity
    removes nothing. *)
Theorem removeItem_NaN_and_infinities (c : CartSubject) (w : Env) :
  items (fst (removeItem NaN c w)) = drop 1 (items c)
  /\ items (fst (removeItem neg_Infinity c w)) = drop 1 (items c)
  /\ items (fst (removeItem Infinity c w)) = items c.
Proof.
  split; [|split]; simpl; unfold splice1; simpl ToIntegerOrInfinity; cbv iota.
  - change (0 <? 0) with false. cbv iota.
    rewrite Z.min_l by lia.
    rewrite (splice1_at 0 (items c)) by lia.
    destruct (items c); reflexivity.
  - rewrite (splice1_at 0 (items c)) by lia.
    destruct (items c); reflexivity.
  - rewrite (splice1_at _ (items c)) by lia.
    now rewrite Z.ltb_irrefl.
Qed.

(** X7: adding a line and then removing at index -1, or at the index the
    new line got, gives back the lines there were. *)
Theorem addItem_then_removeItem (index : number) (p : Product) (q : option number)
    (c : CartSubject) (w w' : Env) :
  ToIntegerOrInfinity index = Int (-1)
  \/ ToIntegerOrInfinity index = Int (Z.of_nat (length (items c))) ->
  items (fst (removeItem index (fst (addItem p q c w)) w')) = items c.
Proof.
  intros H. simpl.
  set (l := {| product := p; qty := Math.max [of_Z 1; default (of_Z 1) q] |}).
  assert (Hdel : delete (length (items c)) (items c ++ [l]) = items c).
  { rewrite delete_take_drop, take_app_length.
    rewrite drop_ge by (rewrite length_app; simpl; lia). apply app_nil_r. }
  destruct H as [H|H].
  - rewrite (splice1_from_end index (-1)), length_app; [|assumption|].
    + simpl length.
      replace (Z.to_nat (Z.of_nat (length (items c) + 1) + -1))
        with (length (items c)) by lia.
      exact Hdel.
    + rewrite length_app. simpl length. lia.
  - rewrite (splice1_inside index (Z.of_nat (length (items c)))); [|assumption|].
    + now rewrite Nat2Z.id.
    + rewrite length_app. simpl length. lia.
Qed.

Lemma addItem_then_removeItem_witness :
  items (fst (removeItem (of_Z (-1))
                (fst (addItem amoxicillin None two_lines empty_env)) empty_env))
  = items two_lines.
Proof.
  apply (addItem_then_removeItem (of_Z (-1)) amoxicillin None two_lines).
  left. vm_compute. reflexivity.
Defined.

End MoreRemove.

(** ** The total *)

Section Total.

Lemma getTotal_snoc (lines : list CartLine) (l : CartLine) :
  getTotal (lines ++ [l])
  = add (getTotal lines) (mul (getPrice (product l)) (qty l)).
Proof. unfold getTotal. now rewrite foldl_app. Qed.

(** X8: after [addItem] the total is the total before plus the item's
    price times the stored quantity; after [clear] it is 0; and removing
    the line just added (index -1) leaves the lines, hence the total, of
    before. *)
Theorem total_follows_the_lines (p : Product) (q : option number)
    (c : CartSubject) (w w' : Env) :
  getTotal (items (fst (addItem p q c w)))
  = add (getTotal (items c))
        (mul (getPrice p) (Math.max [of_Z 1; default (of_Z 1) q]))
  /\ getTotal (items (fst (clear c w))) = of_Z 0
  /\ getTotal (items (fst (removeItem (of_Z (-1)) (fst (addItem p q c w)) w')))
     = getTotal (items c).
Proof.
  split; [apply getTotal_snoc|]. split; [reflexivity|].
  f_equal. simpl.
  rewrite (splice1_from_end (of_Z (-1)) (-1)); [|reflexivity|].
  - rewrite length_app. simpl length.
    replace (Z.to_nat (Z.of_nat (length (items c) + 1) + -1))
      with (length (items c)) by lia.
    rewrite delete_take_drop, take_app_length.
    rewrite drop_ge by (rewrite length_app; simpl; lia). apply app_nil_r.
  - rewrite length_app. simpl length. lia.
Qed.

Lemma add_NaN_l (x : number) : add NaN x = NaN.
Proof. reflexivity. Qed.

Lemma foldl_from_NaN (lines : list CartLine) :
  foldl (fun sum item => add sum (mul (getPrice (product item)) (qty item)))
        NaN lines = NaN.
Proof. induction lines as [|l lines IH]; [reflexivity|exact IH]. Qed.

(** X9: one line whose quantity or price is [NaN] makes the total [NaN],
    wherever the line stands. *)
Theorem NaN_line_spoils_total (before after : list CartLine) (l : CartLine) :
  is_nan (qty l) = true \/ is_nan (getPrice (product l)) = true ->
  getTotal (before ++ l :: after) = NaN.
Proof.
  intros H. unfold getTotal. rewrite foldl_app. simpl.
  replace (mul (getPrice (product l)) (qty l)) with NaN.
  - replace (add _ NaN) with NaN; [apply foldl_from_NaN|].
    now destruct (foldl _ _ before).
  - destruct H as [H|H].
    + destruct (qty l); try discriminate. now destruct (getPrice (product l)).
    + now destruct (getPrice (product l)).
Qed.

Lemma NaN_line_spoils_total_witness :
  getTotal (items (fst (addItem amoxicillin (Some NaN) two_lines empty_env)))
  = NaN.
Proof.
  apply (NaN_line_spoils_total (items two_lines) []
           {| product := amoxicillin; qty := NaN |}).
  left. reflexivity.
Defined.

End Total.

(** ** More on the registry *)

Section MoreRegistry.

Lemma filter_all (P : Observer -> Prop) `{forall o, Decision (P o)}
    (l : list Observer) :
  Forall P l -> filter P l = l.
Proof.
  induction 1 as [|o l Ho _ IH]; [reflexivity|].
  now rewrite filter_cons_True, IH.
Qed.

(** X10: removing an observer that is not registered changes nothing, and
    registering such an observer and removing it again gives back the
    cart. *)
Theorem removeObserver_absent (o : Observer) (c : CartSubject) :
  (forall o', o' ∈ observers c -> ref o' ≠ ref o) ->
  removeObserver o c = c /\ removeObserver o (addObserver o c) = c.
Proof.
  intros H.
  assert (Hf : filter (fun o' => ref o' ≠ ref o) (observers c) = observers c).
  { apply filter_all, Forall_forall. exact H. }
  destruct c as [its obs]. unfold removeObserver, addObserver. simpl in *.
  rewrite filter_app, Hf.
  rewrite filter_cons_False by (intros Hne; now apply Hne).
  rewrite filter_nil, app_nil_r. split; reflexivity.
Qed.

Lemma removeObserver_absent_witness :
  removeObserver (TotalDisplayObserver 0 "cart-total")
    (addObserver (TotalDisplayObserver 0 "cart-total") two_lines) = two_lines.
Proof.
  apply (removeObserver_absent (TotalDisplayObserver 0 "cart-total") two_lines).
  intros o' Ho'. now apply elem_of_nil in Ho'.
Defined.

Lemma filter_other_ref (o : Observer) (r : nat) (l : list Observer) :
  r ≠ ref o ->
  filter (fun o' => ref o' = r) (filter (fun o' => ref o' ≠ ref o) l)
  = filter (fun o' => ref o' = r) l.
Proof.
  intros Hr. induction l as [|o' l IH]; [reflexivity|].
  destruct (decide (ref o' ≠ ref o)) as [Hne|Heq].
  - rewrite (filter_cons_True (fun o' => ref o' ≠ ref o)) by assumption.
    destruct (decide (ref o' = r)) as [Hr'|Hr'].
    + rewrite !(filter_cons_True (fun o' => ref o' = r)) by assumption.
      now rewrite IH.
    + now rewrite !(filter_cons_False (fun o' => ref o' = r)) by assumption.
  - rewrite (filter_cons_False (fun o' => ref o' ≠ ref o)) by assumption.
    rewrite (filter_cons_False (fun o' => ref o' = r)); [exact IH|].
    intros Hr'. apply Hr. rewrite <- Hr'.
    destruct (decide (ref o' = ref o)); [assumption|contradiction].
Qed.

Lemma filter_own_ref (o : Observer) (l : list Observer) :
  filter (fun o' => ref o' = ref o) (filter (fun o' => ref o' ≠ ref o) l) = [].
Proof.
  induction l as [|o' l IH]; [reflexivity|].
  destruct (decide (ref o' ≠ ref o)) as [Hne|Heq].
  - rewrite (filter_cons_True (fun o' => ref o' ≠ ref o)) by assumption.
    rewrite filter_cons_False by assumption. exact IH.
  - now rewrite (filter_cons_False (fun o' => ref o' ≠ ref o)).
Qed.

Lemma registrations_removed (o : Observer) (c : CartSubject) :
  registrations (ref o) (removeObserver o c) = 0%nat.
Proof.
  unfold removeObserver, registrations. simpl.
  induction (observers c) as [|o' l IH]; [reflexivity|].
  destruct (decide (ref o' ≠ ref o)) as [Hne|Heq].
  - rewrite (filter_cons_True (fun o' => ref o' ≠ ref o)) by assumption.
    destruct (decide (is_Some (update o'))) as [Hu|Hu].
    + rewrite (filter_cons_True (fun o => is_Some (update o))) by assumption.
      now rewrite filter_cons_False.
    + now rewrite (filter_cons_False (fun o => is_Some (update o))).
  - now rewrite (filter_cons_False (fun o' => ref o' ≠ ref o)).
Qed.

Lemma registrations_other (o : Observer) (c : CartSubject) (r : nat) :
  r ≠ ref o -> registrations r (removeObserver o c) = registrations r c.
Proof.
  intros Hr. unfold removeObserver, registrations. simpl.
  induction (observers c) as [|o' l IH]; [reflexivity|].
  destruct (decide (is_Some (update o'))) as [Hu|Hu];
    destruct (decide (ref o' ≠ ref o)) as [Hne|Heq];
    destruct (decide (ref o' = r)) as [Hr'|Hr'];
    repeat first
      [ rewrite (filter_cons_True (fun o' => ref o' ≠ ref o)) by assumption
      | rewrite (filter_cons_False (fun o' => ref o' ≠ ref o)) by assumption
      | rewrite (filter_cons_True (fun o => is_Some (update o))) by assumption
      | rewrite (filter_cons_False (fun o => is_Some (update o))) by assumption
      | rewrite (filter_cons_True (fun o => ref o = r)) by assumption
      | rewrite (filter_cons_False (fun o => ref o = r)) by assumption ];
    simpl; try (now rewrite IH); try exact IH.
  exfalso. apply Hr. rewrite <- Hr'.
  destruct (decide (ref o' = ref o)); [assumption|contradiction].
Qed.

(** X11: [removeObserver] is idempotent and leaves the lines alone.  No
    registration of its argument is left, with or without an [update]
    method; the registrations of every other object are all kept, each
    with its method and in the order they had. *)
Theorem removeObserver_only_its_argument (o : Observer) (c : CartSubject) :
  removeObserver o (removeObserver o c) = removeObserver o c
  /\ items (removeObserver o c) = items c
  /\ filter (fun o' => ref o' = ref o) (observers (removeObserver o c)) = []
  /\ filter (fun o' => ref o' ≠ ref o) (observers (removeObserver o c))
     = filter (fun o' => ref o' ≠ ref o) (observers c)
  /\ (forall r : nat, r ≠ ref o ->
        filter (fun o' => ref o' = r) (observers (removeObserver o c))
        = filter (fun o' => ref o' = r) (observers c))
  /\ registrations (ref o) (removeObserver o c) = 0%nat
  /\ (forall r : nat, r ≠ ref o ->
        registrations r (removeObserver o c) = registrations r c).
Proof.
  assert (Hidem : filter (fun o' => ref o' ≠ ref o)
                    (filter (fun o' => ref o' ≠ ref o) (observers c))
                  = filter (fun o' => ref o' ≠ ref o) (observers c)).
  { apply filter_all, Forall_forall.
    intros o' Ho'. now apply list_elem_of_filter in Ho' as [? _]. }
  split; [unfold removeObserver; simpl; now rewrite Hidem|].
  split; [reflexivity|].
  split; [apply filter_own_ref|].
  split; [exact Hidem|].
  split; [intros r Hr; now apply filter_other_ref|].
  split; [apply registrations_removed|].
  intros r Hr. now apply registrations_other.
Qed.

(** X12: an object without an [update] method can be registered, and is
    passed over: a notification does to the world what it did without
    it. *)
Theorem observer_without_update_is_skipped (o : Observer) (c : CartSubject) (w : Env) :
  update o = None -> notify (addObserver o c) w = notify c w.
Proof.
  intros H. unfold notify, addObserver. simpl. rewrite foldl_app. simpl.
  unfold call_update at 1. rewrite H. reflexivity.
Qed.

Lemma observer_without_update_is_skipped_witness :
  notify (addObserver {| ref := 7; update := None |} two_lines) empty_env
  = notify two_lines empty_env.
Proof.
  apply (observer_without_update_is_skipped {| ref := 7; update := None |}).
  reflexivity.
Defined.

End MoreRegistry.

(** ** Integers as numbers *)

Section Integers.

Lemma iter_xO_value (p k : positive) :
  Zpos (Pos.iter xO p k) = Zpos p * 2 ^ Zpos k.
Proof.
  revert p. induction k using Pos.peano_ind; intros p.
  - simpl. lia.
  - rewrite Pos.iter_succ, Pos2Z.inj_xO, IHk, Pos2Z.inj_succ, Z.pow_succ_r by lia.
    lia.
Qed.

Lemma iter_xO_digits (p k : positive) :
  Zpos (digits2_pos (Pos.iter xO p k)) = Zpos (digits2_pos p) + Zpos k.
Proof.
  revert p. induction k using Pos.peano_ind; intros p.
  - simpl. lia.
  - rewrite Pos.iter_succ. simpl digits2_pos. rewrite Pos2Z.inj_succ, IHk. lia.
Qed.

Lemma digits2_pos_lower (p : positive) :
  2 ^ (Zpos (digits2_pos p) - 1) <= Zpos p.
Proof.
  induction p as [p IH|p IH|]; simpl digits2_pos; [| |simpl; lia];
    rewrite Pos2Z.inj_succ;
    replace (Z.succ (Zpos (digits2_pos p)) - 1)
      with (Z.succ (Zpos (digits2_pos p) - 1)) by lia;
    rewrite Z.pow_succ_r by lia; lia.
Qed.

Lemma digits2_pos_bound (p : positive) :
  Zpos p < 2 ^ 53 -> Zpos (digits2_pos p) <= 53.
Proof.
  intros H.
  destruct (Z.le_gt_cases (Zpos (digits2_pos p)) 53) as [|Hgt]; [assumption|].
  pose proof (digits2_pos_lower p) as Hl.
  assert (2 ^ 53 <= 2 ^ (Zpos (digits2_pos p) - 1))
    by (apply Z.pow_le_mono_r; lia).
  lia.
Qed.

(** A mantissa of 53 bits with an exponent in range is left as it is. *)
Lemma binary_round_aux_exact (s : bool) (m : positive) (e : Z) :
  Zpos (digits2_pos m) = 53 -> -1074 <= e <= 971 ->
  binary_round_aux prec emax s (Zpos m) e loc_Exact = S754_finite s m e.
Proof.
  intros Hd He. unfold binary_round_aux, shr_fexp.
  assert (Hshift : fexp prec emax (Zdigits2 (Zpos m) + e) - e = 0).
  { unfold fexp, emin, prec, emax, Zdigits2. rewrite Hd. lia. }
  rewrite Hshift.
  cbn [shr shr_record_of_loc shr_m shr_r shr_s loc_of_shr_record
       round_nearest_even].
  rewrite Hshift.
  cbn [shr shr_record_of_loc shr_m shr_r shr_s loc_of_shr_record
       round_nearest_even].
  destruct (Z.leb_spec e (emax - prec)); [reflexivity|].
  unfold emax, prec in *. lia.
Qed.

Lemma binary_round_small (s : bool) (p : positive) :
  Zpos p < 2 ^ 53 ->
  exists m e, binary_round prec emax s p 0 = S754_finite s m e
              /\ -52 <= e <= 0 /\ Zpos m = Zpos p * 2 ^ (- e).
Proof.
  intros Hp. pose proof (digits2_pos_bound p Hp) as Hd.
  pose proof (Pos2Z.is_pos (digits2_pos p)) as Hd0.
  unfold binary_round.
  replace (fexp prec emax (Zpos (digits2_pos p) + 0))
    with (Zpos (digits2_pos p) - 53) by (unfold fexp, emin, prec, emax; lia).
  unfold shl_align.
  destruct (Zpos (digits2_pos p) - 53 - 0) as [|k|k] eqn:Ek; try lia.
  - exists p, 0. rewrite binary_round_aux_exact by lia.
    split; [reflexivity|]. split; [lia|]. simpl. lia.
  - exists (Pos.iter xO p k), (Zpos (digits2_pos p) - 53).
    rewrite binary_round_aux_exact.
    + split; [reflexivity|]. split; [lia|].
      rewrite iter_xO_value. do 2 f_equal. lia.
    + rewrite iter_xO_digits. lia.
    + lia.
Qed.

(** X13: an integer of magnitude below 2^53 survives the passage through a
    number: the double made of it is an integer, not [NaN], and converts
    back to it. *)
Theorem integer_round_trip (n : Z) :
  - 2 ^ 53 < n < 2 ^ 53 ->
  ToIntegerOrInfinity (of_Z n) = Int n
  /\ is_integer (of_Z n) = true
  /\ is_nan (of_Z n) = false.
Proof.
  intros Hn. destruct n as [|p|p]; [now repeat split| |].
  - destruct (binary_round_small false p) as (m & e & E & He & Hm); [lia|].
    unfold of_Z, binary_normalize. rewrite E.
    unfold ToIntegerOrInfinity, is_integer.
    destruct e as [|e|k]; try lia; [now repeat split; f_equal; simpl in Hm; lia|].
    rewrite Hm. simpl Z.opp. split; [|split; [|reflexivity]].
    + f_equal. apply Z.div_mul. lia.
    + apply Z.eqb_eq, Z.mod_mul. lia.
  - destruct (binary_round_small true p) as (m & e & E & He & Hm); [lia|].
    unfold of_Z, binary_normalize. rewrite E.
    unfold ToIntegerOrInfinity, is_integer.
    destruct e as [|e|k]; try lia; [now repeat split; f_equal; simpl in Hm; lia|].
    rewrite Hm. simpl Z.opp. split; [|split; [|reflexivity]].
    + f_equal. rewrite Z.div_mul by lia. lia.
    + apply Z.eqb_eq, Z.mod_mul. lia.
Qed.

Lemma integer_round_trip_witness :
  ToIntegerOrInfinity (of_Z 1000000) = Int 1000000.
Proof. apply (integer_round_trip 1000000). lia. Defined.

Lemma ToIntegerOrInfinity_of_nat (idx : nat) :
  Z.of_nat idx < 2 ^ 53 ->
  ToIntegerOrInfinity (of_Z (Z.of_nat idx)) = Int (Z.of_nat idx).
Proof.
  intros H. destruct (Z.of_nat idx) as [|p|p] eqn:E; [reflexivity| |lia].
  destruct (binary_round_small false p) as (m & e & Em & He & Hm); [lia|].
  unfold of_Z, binary_normalize. rewrite Em. unfold ToIntegerOrInfinity.
  f_equal. destruct e as [|e|k]; try lia.
  rewrite Hm. simpl Z.opp. apply Z.div_mul. lia.
Qed.

(** X14: the remove button of line [idx] removes exactly that line, and
    after it the checkout button is disabled exactly when no line is left;
    a button whose line is no longer there removes nothing. *)
Theorem remove_click_removes_its_line (idx : nat) (s : App) :
  Z.of_nat idx < 2 ^ 53 ->
  ((idx < length (items (cart s)))%nat ->
     items (cart (on_remove_click idx s)) = delete idx (items (cart s)))
  /\ ((length (items (cart s)) <= idx)%nat ->
     items (cart (on_remove_click idx s)) = items (cart s))
  /\ checkoutDisabled (env (on_remove_click idx s))
     = is_empty (cart (on_remove_click idx s))
  /\ verified (on_remove_click idx s) = verified s.
Proof.
  intros Hidx. pose proof (ToIntegerOrInfinity_of_nat idx Hidx) as E.
  unfold on_remove_click, removeItem. simpl.
  split; [|split; [|split; reflexivity]].
  - intros H. rewrite (splice1_inside _ _ _ E) by lia. now rewrite Nat2Z.id.
  - intros H. apply (splice1_beyond _ _ _ E). lia.
Qed.

Lemma remove_click_removes_its_line_witness :
  items (cart (on_remove_click 1 {| cart := two_lines; verified := false;
                                     env := empty_env |})) = [line 10 2].
Proof.
  destruct (remove_click_removes_its_line 1
              {| cart := two_lines; verified := false; env := empty_env |})
    as (H & _); [lia|].
  apply H. simpl. lia.
Defined.

End Integers.

(** ** The Add-to-Cart handler *)

Section AddClick.

Lemma handler_quantity (q : number) :
  leb (of_Z 1) (Math.max [of_Z 1; or_else q (of_Z 1)]) = true
  /\ is_nan (Math.max [of_Z 1; or_else q (of_Z 1)]) = false
  /\ (ToBoolean q = false -> Math.max [of_Z 1; or_else q (of_Z 1)] = of_Z 1).
Proof.
  assert (Hn : is_nan (or_else q (of_Z 1)) = false).
  { unfold or_else. destruct q; reflexivity. }
  rewrite quantity_cases, Hn, of_Z_1. repeat split.
  - destruct (ltb one _) eqn:E; [now apply ltb_leb | reflexivity].
  - destruct (ltb one _); [assumption | reflexivity].
  - intros H. unfold or_else. rewrite H. reflexivity.
Qed.

(** X15: the Add-to-Cart handler is all or nothing.  It ends in exactly
    one of three ways: the id is unknown and the page is as it was; the
    product needs a prescription, the gate is unverified and the cart and
    the update history are as they were; or one line is appended that
    holds the catalog product of that id, which then either needs no
    prescription or was added under a verified gate. *)
Theorem add_click_all_or_nothing (r : AddRequest) (s : App) :
  match fst (on_add_click r s) with
  | NotFound message =>
      ProductFactory.createProduct (productId r) = Throw message
      /\ snd (on_add_click r s) = s
  | PermissionDenied =>
      (exists found,
          ProductFactory.createProduct (productId r) = Return found
          /\ prescriptionRequired (fields found) = true)
      /\ verified s = false
      /\ cart (snd (on_add_click r s)) = cart s
      /\ updates (env (snd (on_add_click r s))) = updates (env s)
  | Added =>
      exists found l,
        ProductFactory.createProduct (productId r) = Return found
        /\ items (cart (snd (on_add_click r s))) = items (cart s) ++ [l]
        /\ fields (product l) = fields found
        /\ (prescriptionRequired (fields found) = true -> verified s = true)
  end.
Proof.
  unfold on_add_click.
  destruct (ProductFactory.createProduct (productId r)) as [found|message];
    [|now split].
  unfold Prescription.isVerified.
  assert (Hfields : forall d ins,
             fields (match ins with
                     | None => if ltb (of_Z 0) d then DiscountDecorator found d
                               else found
                     | Some coverage =>
                         InsuranceDecorator
                           (if ltb (of_Z 0) d then DiscountDecorator found d
                            else found) (Some coverage)
                     end) = fields found).
  { intros d [coverage|]; simpl; destruct (ltb _ d); reflexivity. }
  destruct (prescriptionRequired (fields found)) eqn:Hrx, (verified s) eqn:Hv;
    simpl.
  - exists found. eexists. split; [reflexivity|]. split; [reflexivity|].
    split; [apply Hfields | reflexivity].
  - split; [now exists found|]. now repeat split.
  - exists found. eexists. split; [reflexivity|]. split; [reflexivity|].
    split; [apply Hfields | intros; congruence].
  - exists found. eexists. split; [reflexivity|]. split; [reflexivity|].
    split; [apply Hfields | intros; congruence].
Qed.

(** X16: whatever the quantity field holds, a line the Add-to-Cart handler
    appends has a quantity that is a number and at least 1; it is 1 when
    the field's value is [NaN] or a zero. *)
Theorem add_click_quantity (r : AddRequest) (s : App) :
  fst (on_add_click r s) = Added ->
  exists l,
    items (cart (snd (on_add_click r s))) = items (cart s) ++ [l]
    /\ leb (of_Z 1) (qty l) = true
    /\ is_nan (qty l) = false
    /\ (ToBoolean (qtyValue r) = false -> qty l = of_Z 1).
Proof.
  unfold on_add_click.
  destruct (ProductFactory.createProduct (productId r)) as [found|message];
    [|discriminate].
  destruct (prescriptionRequired (fields found) && _); [discriminate|].
  intros _. simpl. eexists. split; [reflexivity|]. simpl.
  apply handler_quantity.
Qed.

Lemma add_click_quantity_witness :
  exists l,
    items (cart (snd (on_add_click omeprazole_request loaded))) = [l]
    /\ qty l = of_Z 1.
Proof.
  destruct (add_click_quantity omeprazole_request loaded eq_refl)
    as (l & Hl & _ & _ & H1).
  exists l. split; [exact Hl | now apply H1].
Defined.

End AddClick.

(** ** What the page keeps true *)

Section Page.

Lemma notify_display (c : CartSubject) (w : Env) :
  observers c = [TotalDisplayObserver 0 "cart-total"] ->
  textContent (notify c w) !! "cart-total"
  = Some (Dollar (toFixed2 (getTotal (items c))))
  /\ checkoutDisabled (notify c w) = checkoutDisabled w.
Proof.
  intros H. unfold notify. rewrite H. simpl.
  split; [apply lookup_insert_eq | reflexivity].
Qed.

Lemma Forall_splice1 {A : Type} (P : A -> Prop) (start : number) (l : list A) :
  Forall P l -> Forall P (splice1 start l).
Proof.
  intros H. destruct (splice1_cases start l) as [->|(k & _ & ->)];
    [assumption | now apply Forall_delete].
Qed.

Lemma decorated_shape (e : Fields) (d : number) (ins : option number) :
  e ∈ CATALOG ->
  chain_shape (match ins with
               | None => if ltb (of_Z 0) d
                         then DiscountDecorator (PlainProduct e) d
                         else PlainProduct e
               | Some coverage =>
                   InsuranceDecorator
                     (if ltb (of_Z 0) d then DiscountDecorator (PlainProduct e) d
                      else PlainProduct e) (Some coverage)
               end).
Proof. intros He. destruct ins; simpl; destruct (ltb _ d); exact He. Qed.

Lemma init_page_ok (w : Env) : page_ok (init w).
Proof.
  unfold page_ok, init. simpl.
  split; [reflexivity|]. split; [apply lookup_insert_eq|].
  repeat split; constructor.
Qed.

Lemma add_click_keeps_page (r : AddRequest) (s : App) :
  page_ok s -> page_ok (snd (on_add_click r s)).
Proof.
  intros (Hobs & Htext & Hqty & Hshape & Hrx).
  unfold on_add_click.
  pose proof (factory_returns_plain (productId r)) as Hfound.
  destruct (ProductFactory.createProduct (productId r)) as [found|message];
    [|now repeat split].
  destruct Hfound as (e & He & ->).
  unfold Prescription.isVerified.
  destruct (prescriptionRequired (fields (PlainProduct e)) && negb (verified s))
    eqn:Hguard; [now repeat split|].
  unfold page_ok, addItem, set_checkoutDisabled.
  cbn [snd fst cart verified env items observers textContent checkoutDisabled].
  split; [exact Hobs|].
  split; [apply (notify_display {| items := _; observers := _ |} _ Hobs)|].
  split; [|split].
  - apply Forall_app. split; [exact Hqty|].
    constructor; [|constructor]. apply handler_quantity.
  - apply Forall_app. split; [exact Hshape|].
    constructor; [|constructor]. now apply decorated_shape.
  - apply Forall_app. split; [exact Hrx|].
    constructor; [|constructor]. cbn [product]. intros H.
    replace (prescriptionRequired (fields _)) with (prescriptionRequired e) in H
      by (destruct (insuranceSel r); simpl; destruct (ltb _ (discount r));
          reflexivity).
    simpl in Hguard. rewrite H in Hguard. now destruct (verified s).
Qed.

Lemma click_keeps_page (s : App) (a : Action) :
  is_click a -> page_ok s -> page_ok (step s a).
Proof.
  intros Ha Hs. destruct a; try contradiction; simpl.
  - now apply add_click_keeps_page.
  - destruct Hs as (Hobs & Htext & Hqty & Hshape & Hrx).
    unfold page_ok, on_remove_click, removeItem, set_checkoutDisabled.
    cbn [snd fst cart verified env items observers textContent checkoutDisabled].
    split; [exact Hobs|].
    split; [apply (notify_display {| items := _; observers := _ |} _ Hobs)|].
    repeat split; now apply Forall_splice1.
  - destruct Hs as (Hobs & Htext & Hqty & Hshape & Hrx).
    unfold page_ok, on_verify_click, Prescription.verify.
    destruct hasFile, confirmed; simpl;
      (split; [exact Hobs|]);
      (split; [now rewrite lookup_insert_ne|]);
      (split; [exact Hqty|]);
      (split; [exact Hshape|]);
      try exact Hrx.
    apply Forall_forall. now intros l _ _.
  - unfold on_checkout_click. destruct (is_empty (cart s)) eqn:E; [exact Hs|].
    destruct Hs as (Hobs & Htext & Hqty & Hshape & Hrx).
    unfold page_ok, clear, set_checkoutDisabled.
    cbn [snd fst cart verified env items observers textContent checkoutDisabled].
    split; [exact Hobs|].
    split; [apply (notify_display {| items := []; observers := _ |} _ Hobs)|].
    repeat split; constructor.
Qed.

Lemma clicks_keep_page (clicks : list Action) (s : App) :
  Forall is_click clicks -> page_ok s -> page_ok (run s clicks).
Proof.
  revert s. induction clicks as [|a clicks IH]; intros s Hc Hs; [exact Hs|].
  apply Forall_cons in Hc as [Ha Hc].
  change (run s (a :: clicks)) with (run (step s a) clicks).
  apply IH; [assumption|]. now apply click_keeps_page.
Qed.

Lemma click_keeps_button (s : App) (a : Action) :
  is_click a -> button_ok s -> button_ok (step s a).
Proof.
  intros Ha Hs. unfold button_ok in *.
  destruct a as [r|idx|hasFile confirmed| | | | | | | | ]; try contradiction; simpl.
  - unfold on_add_click.
    destruct (ProductFactory.createProduct (productId r)); [|exact Hs].
    destruct (prescriptionRequired _ && _); [exact Hs | reflexivity].
  - reflexivity.
  - unfold on_verify_click, Prescription.verify.
    destruct hasFile, confirmed; exact Hs.
  - unfold on_checkout_click.
    destruct (is_empty (cart s)) eqn:E; [now rewrite E | reflexivity].
Qed.

End Page.

Section PageProperties.

(** X17: through any sequence of clicks from the loaded page the cart
    keeps its one observer, and the total shown on the page is the total
    of the lines now in the cart. *)
Theorem display_shows_the_total (w : Env) (clicks : list Action) :
  Forall is_click clicks ->
  observers (cart (run (init w) clicks)) = [TotalDisplayObserver 0 "cart-total"]
  /\ textContent (env (run (init w) clicks)) !! "cart-total"
     = Some (Dollar (toFixed2 (getTotal (items (cart (run (init w) clicks)))))).
Proof.
  intros Hc.
  destruct (clicks_keep_page clicks (init w) Hc (init_page_ok w))
    as (Hobs & Htext & _).
  now split.
Qed.

Lemma display_shows_the_total_witness :
  textContent (env (run loaded visit)) !! "cart-total"
  = Some (Dollar (toFixed2 (getTotal (items (cart (run loaded visit)))))).
Proof.
  apply (display_shows_the_total empty_env visit). repeat constructor.
Defined.

(** X18: if the checkout button is disabled when the page loads, then
    after any sequence of clicks it is disabled exactly when the cart is
    empty. *)
Theorem button_follows_the_cart (w : Env) (clicks : list Action) :
  checkoutDisabled w = true ->
  Forall is_click clicks ->
  checkoutDisabled (env (run (init w) clicks))
  = is_empty (cart (run (init w) clicks)).
Proof.
  intros Hw Hc.
  assert (H0 : button_ok (init w)) by exact Hw.
  revert H0. generalize (init w) as s.
  induction Hc as [|a clicks Ha _ IH]; intros s Hs; [exact Hs|].
  change (run s (a :: clicks)) with (run (step s a) clicks).
  apply IH. now apply click_keeps_button.
Qed.

Lemma button_follows_the_cart_witness :
  checkoutDisabled (env (run loaded visit)) = false.
Proof.
  unfold loaded.
  rewrite (button_follows_the_cart empty_env visit eq_refl);
    [reflexivity | repeat constructor].
Defined.

(** X19: after any sequence of clicks from the loaded page every line of
    the cart has a quantity of at least 1. *)
Theorem page_quantities_at_least_one (w : Env) (clicks : list Action) (l : CartLine) :
  Forall is_click clicks ->
  l ∈ items (cart (run (init w) clicks)) ->
  leb (of_Z 1) (qty l) = true.
Proof.
  intros Hc Hl.
  destruct (clicks_keep_page clicks (init w) Hc (init_page_ok w))
    as (_ & _ & Hqty & _).
  rewrite Forall_forall in Hqty. now apply Hqty.
Qed.

Lemma page_quantities_at_least_one_witness :
  Forall (fun l => leb (of_Z 1) (qty l) = true) (items (cart (run loaded visit))).
Proof.
  apply Forall_forall. intros l Hl.
  apply (page_quantities_at_least_one empty_env visit l);
    [repeat constructor | exact Hl].
Defined.

(** X20: after any sequence of clicks from the loaded page every line
    holds a catalog product, bare or wrapped in a discount, in an
    insurance, or in a discount and then an insurance: never deeper, never
    in the other order. *)
Theorem page_lines_are_catalog_chains (w : Env) (clicks : list Action) (l : CartLine) :
  Forall is_click clicks ->
  l ∈ items (cart (run (init w) clicks)) ->
  chain_shape (product l) /\ fields (product l) ∈ CATALOG.
Proof.
  intros Hc Hl.
  destruct (clicks_keep_page clicks (init w) Hc (init_page_ok w))
    as (_ & _ & _ & Hshape & _).
  rewrite Forall_forall in Hshape. specialize (Hshape l Hl).
  split; [exact Hshape|].
  destruct (product l) as [e|[e|?|?] ?|[e|[e|?|?] ?|?] ?]; simpl in *;
    first [exact Hshape | contradiction].
Qed.

Lemma page_lines_are_catalog_chains_witness :
  Forall (fun l => fields (product l) ∈ CATALOG) (items (cart (run loaded visit))).
Proof.
  apply Forall_forall. intros l Hl.
  apply (page_lines_are_catalog_chains empty_env visit l);
    [repeat constructor | exact Hl].
Defined.

(** X21: after any sequence of clicks from the loaded page, a line whose
    product requires a prescription is in the cart only if the gate is
    verified. *)
Theorem prescription_lines_need_the_gate (w : Env) (clicks : list Action) (l : CartLine) :
  Forall is_click clicks ->
  l ∈ items (cart (run (init w) clicks)) ->
  prescriptionRequired (fields (product l)) = true ->
  verified (run (init w) clicks) = true.
Proof.
  intros Hc Hl Hrx.
  destruct (clicks_keep_page clicks (init w) Hc (init_page_ok w))
    as (_ & _ & _ & _ & H).
  rewrite Forall_forall in H. now apply (H l).
Qed.

Lemma prescription_lines_need_the_gate_witness :
  verified (run loaded visit) = true.
Proof.
  apply (prescription_lines_need_the_gate empty_env visit
           {| product := InsuranceDecorator
                           (DiscountDecorator amoxicillin (of_Z 10))
                           (Some (of_Z 30));
              qty := Math.max [of_Z 1; or_else (of_Z 2) (of_Z 1)] |}).
  - repeat constructor.
  - apply list_elem_of_here.
  - reflexivity.
Defined.

End PageProperties.

(** ** The verify and checkout buttons *)

Section Buttons.

(** X22: the status text reports the last attempt, not the gate: after a
    click on Verify it reads Verified exactly when that click had a file
    and a confirmation, while the gate is verified if it was before or the
    click succeeded.  So a failed attempt on a verified gate leaves the
    page reading Not verified with the gate still verified. *)
Theorem status_text_reports_last_attempt (hasFile confirmed : bool) (s : App) :
  textContent (env (on_verify_click hasFile confirmed s)) !! "rx-status"
  = Some (Literal (if hasFile && confirmed then "Verified" else "Not verified"))
  /\ verified (on_verify_click hasFile confirmed s)
     = verified s || (hasFile && confirmed)
  /\ cart (on_verify_click hasFile confirmed s) = cart s
  /\ (verified s = true -> hasFile && confirmed = false ->
      Prescription.isVerified (verified (on_verify_click hasFile confirmed s))
      = true
      /\ textContent (env (on_verify_click hasFile confirmed s)) !! "rx-status"
         = Some (Literal "Not verified")).
Proof.
  unfold on_verify_click, Prescription.verify, Prescription.isVerified.
  destruct hasFile, confirmed; simpl;
    (split; [apply lookup_insert_eq|]);
    (split; [now destruct (verified s)|]);
    (split; [reflexivity|]);
    intros Hv Hf; try discriminate;
    (split; [exact Hv | apply lookup_insert_eq]).
Qed.

Lemma status_text_reports_last_attempt_witness :
  Prescription.isVerified (verified (on_verify_click false true verified_page))
  = true
  /\ textContent (env (on_verify_click false true verified_page)) !! "rx-status"
     = Some (Literal "Not verified").
Proof.
  destruct (status_text_reports_last_attempt false true verified_page)
    as (_ & _ & _ & H).
  apply H; reflexivity.
Defined.

Lemma alerts_notify (c : CartSubject) (w : Env) :
  alerts (notify c w) = alerts w /\ checkoutDisabled (notify c w) = checkoutDisabled w.
Proof. unfold notify. split; apply foldl_call_update. Qed.

(** X23: checkout on an empty cart does nothing at all.  Otherwise it
    shows one alert with the total of the lines it is about to drop,
    empties the cart, notifies the observers of the empty cart and disables
    the button, leaving registry and gate alone; a second checkout right
    after changes nothing. *)
Theorem checkout_empties_once (s : App) :
  (is_empty (cart s) = true -> on_checkout_click s = s)
  /\ (is_empty (cart s) = false ->
      items (cart (on_checkout_click s)) = []
      /\ observers (cart (on_checkout_click s)) = observers (cart s)
      /\ verified (on_checkout_click s) = verified s
      /\ alerts (env (on_checkout_click s))
         = alerts (env s) ++ [ThankYou (toFixed2 (getTotal (items (cart s))))]
      /\ updates (env (on_checkout_click s))
         = updates (env s) ++ notified (cart (on_checkout_click s))
      /\ checkoutDisabled (env (on_checkout_click s)) = true
      /\ getTotal (items (cart (on_checkout_click s))) = of_Z 0)
  /\ on_checkout_click (on_checkout_click s) = on_checkout_click s.
Proof.
  set (emptied := {| items := []; observers := observers (cart s) |}).
  set (thanked := alert (ThankYou (toFixed2 (getTotal (items (cart s))))) (env s)).
  assert (Hempty : is_empty (cart s) = true -> on_checkout_click s = s).
  { intros E. unfold on_checkout_click. now rewrite E. }
  assert (Hfull : is_empty (cart s) = false ->
                  on_checkout_click s
                  = {| cart := emptied; verified := verified s;
                       env := set_checkoutDisabled true (notify emptied thanked) |}).
  { intros E. unfold on_checkout_click. now rewrite E. }
  split; [exact Hempty|]. split.
  - intros E. rewrite (Hfull E).
    cbn [cart env verified items observers set_checkoutDisabled alerts updates
         checkoutDisabled].
    destruct (alerts_notify emptied thanked) as [Ha _].
    rewrite Ha, notify_updates. now repeat split.
  - destruct (is_empty (cart s)) eqn:E.
    + now rewrite !Hempty.
    + now rewrite (Hfull eq_refl).
Qed.

Lemma checkout_empties_once_witness :
  items (cart (on_checkout_click (run loaded visit))) = []
  /\ on_checkout_click loaded = loaded.
Proof.
  destruct (checkout_empties_once (run loaded visit)) as (_ & Hfull & _).
  destruct (checkout_empties_once loaded) as (Hempty & _).
  split; [now apply Hfull | now apply Hempty].
Defined.

End Buttons.

(** ** Names *)

Section Names.

Lemma getName_head (p : Product) :
  head (getName p) = Some (Chars (name (fields p))).
Proof.
  induction p as [f|w IH percent|w IH coverage]; simpl; [reflexivity| |];
    destruct (getName w); simpl in *; congruence.
Qed.

Lemma getName_numbers (p : Product) :
  interpolated_numbers (getName p) = discount_percents p.
Proof.
  unfold interpolated_numbers.
  induction p as [f|w IH percent|w IH coverage]; simpl; [reflexivity| |];
    rewrite omap_app, IH; simpl; [reflexivity | apply app_nil_r].
Qed.

(** X24: the name of a product, however decorated, begins with the name of
    the catalog entry at the root of the chain, and the numbers the script
    interpolates into it are exactly the stored (clamped) percentages of
    its discounts, innermost first: an insurance interpolates none (its
    coverage does not appear), and a discount requested above 100
    interpolates 100. *)
Theorem name_shows_root_and_discounts (p : Product) :
  head (getName p) = Some (Chars (name (fields p)))
  /\ interpolated_numbers (getName p) = discount_percents p
  /\ (forall percent, ltb (of_Z 100) percent = true ->
        interpolated_numbers (getName (DiscountDecorator p percent))
        = discount_percents p ++ [of_Z 100])
  /\ (forall coverage,
        interpolated_numbers (getName (InsuranceDecorator p coverage))
        = discount_percents p).
Proof.
  split; [apply getName_head|]. split; [apply getName_numbers|]. split.
  - intros percent H. rewrite of_Z_100 in *.
    rewrite getName_numbers. simpl. now rewrite (clamp_percent_above _ H).
  - intros coverage. now rewrite getName_numbers.
Qed.

End Names.
